(** * AI IVR dashboard: the load, aggregate and reshape pipeline of
    [streamlit_app.py]

    The script reads a wide table (one row per date, one column per
    category and metric), renames six legacy columns, sums two columns and
    melts the selected category columns into a long frame that is padded
    with two synthetic rows before it is charted.

    Conventions of the embedding.
    - A [DataFrame] is columnar, as in pandas: a date column and an ordered
      list of labelled numeric columns.  A cell is [option Z]: [None] is a
      null (NaN) cell.  A column without a null is an [int64] column and
      its sum wraps around at 64 bits; a column with a null is a [float64]
      column, whose sum is kept as the integer it holds, which is exact as
      long as the magnitudes stay within 2^53.  [max_val * 1.05] is the
      exact rational product, not its binary64 rounding.
    - A datetime is its [datetime64[ns]] payload, the nanoseconds since
      1970-01-01 as an integer; [None] is [NaT].
    - A pandas call that can raise returns a [result].
    - pandas itself is not part of the script: [read_csv], [to_datetime],
      [melt], [rename], [sum], [min], [max], [concat] and [iloc] are
      modelled after their documented behaviour.  [pd.to_datetime] fixes
      the format of a column on its first text; the ISO form [YYYY-MM-DD]
      is modelled in full, what it makes of another form is a parameter of
      the loader. *)

From Stdlib Require Import ZArith QArith Qminmax Lqa String Ascii List Lia Bool.
From Stdlib Require Import DecimalString DecimalZ DecimalPos.
From stdpp Require Import base option list strings gmap.

Local Open Scope Z_scope.
Local Open Scope string_scope.
Local Open Scope list_scope.
Local Open Scope stdpp_scope.

(** * The program *)

(** ** Exceptions *)

(** The exceptions of the script.  [KeyError key] is the one of a
    subscript, which carries the key; [MissingColumns names] is the
    [KeyError] of [DataFrame.melt], whose message lists the labels that
    the frame lacks. *)
Inductive error :=
| KeyError (key : string)
| IndexError
| ParserError (raw : string)
| NameError (name : string)
| TypeError
| OutOfBoundsDatetime (raw : string)
| MissingColumns (names : list string)
| OSError (message : string).

Inductive result (A : Type) :=
| Ok (a : A)
| Raise (e : error).
Arguments Ok {A} a.
Arguments Raise {A} e.

Definition bind {A B} (r : result A) (k : A -> result B) : result B :=
  match r with
  | Ok a => k a
  | Raise e => Raise e
  end.

Notation "'do' x <- r ; k" := (bind r (fun x => k))
  (at level 10, x name, r at level 100, k at level 200).

Fixpoint traverse {A B} (f : A -> result B) (l : list A) : result (list B) :=
  match l with
  | [] => Ok []
  | a :: l' => do b <- f a; do bs <- traverse f l'; Ok (b :: bs)
  end.

(** ** Data model *)

(** A numeric cell; [None] is a null cell. *)
Abbreviation cell := (option Z).

(** A [datetime64] value; [None] is [NaT]. *)
Abbreviation datetime := (option Z).

(** The date column once it is not of dtype [object]: the flag tells a
    date/time dtype from any other (numeric) one, the payload is the
    integer pandas orders the values by. *)
Record dates := mkDates {
  is_datetime : bool;
  stamps : list (option Z)
}.

(** The date column as [pd.read_csv] hands it over. *)
Inductive csv_dates :=
| ObjectDates (raw : list (option string))
| TypedDates (d : dates).

Record DataFrame (D : Type) := mkDataFrame {
  date_ : D;
  columns : list (string * list cell)
}.
Arguments mkDataFrame {D} date_ columns.
Arguments date_ {D} d.
Arguments columns {D} d.

(** The table the script works on after [load_data]. *)
Abbreviation Table := (DataFrame dates).

Definition labels {D} (df : DataFrame D) : list string := map fst (columns df).

(** ** Dataset loader: [load_data] *)

Definition rename_map : list (string * string) :=
  [ ("sb_sessions", "sb_hardware_sessions");
    ("sb_messages", "sb_hardware_messages");
    ("edc_sessions", "edc_hardware_sessions");
    ("edc_messages", "edc_hardware_messages");
    ("payment_acceptence_sessions", "payment_acceptance_sessions");
    ("payment_acceptence_messages", "payment_acceptance_messages") ].

(** [d[k]] / [d.get(k)] on a dict kept in insertion order. *)
Fixpoint dict_get {V} (d : list (string * V)) (k : string) : option V :=
  match d with
  | [] => None
  | (k', v) :: d' => if String.eqb k' k then Some v else dict_get d' k
  end.

Definition rename_label (name : string) : string :=
  match dict_get rename_map name with
  | Some canonical => canonical
  | None => name
  end.

(** [df.rename(columns=rename_map)]: labels missing from the map are kept,
    keys missing from the frame are ignored. *)
Definition rename {D} (df : DataFrame D) : DataFrame D :=
  mkDataFrame (date_ df)
    (map (fun c : string * list cell => (rename_label (fst c), snd c)) (columns df)).

(** *** Calendar dates and [datetime64[ns]] payloads *)

Local Open Scope Z_scope.

Definition ns_per_day : Z := 86400 * 1000000000.

Definition int64_min : Z := - 2 ^ 63.
Definition int64_max : Z := 2 ^ 63 - 1.

(** Days since 1970-01-01 of a date of the proleptic Gregorian calendar,
    and back. *)
Definition days_from_civil (y m d : Z) : Z :=
  let y' := if m <=? 2 then y - 1 else y in
  let era := y' / 400 in
  let yoe := y' - era * 400 in
  let mp := if 2 <? m then m - 3 else m + 9 in
  let doy := (153 * mp + 2) / 5 + d - 1 in
  let doe := yoe * 365 + yoe / 4 - yoe / 100 + doy in
  era * 146097 + doe - 719468.

Definition civil_from_days (days : Z) : Z * Z * Z :=
  let z := days + 719468 in
  let era := z / 146097 in
  let doe := z - era * 146097 in
  let yoe := (doe - doe / 1460 + doe / 36524 - doe / 146096) / 365 in
  let doy := doe - (365 * yoe + yoe / 4 - yoe / 100) in
  let mp := (5 * doy + 2) / 153 in
  let d := doy - (153 * mp + 2) / 5 + 1 in
  let m := if mp <? 10 then mp + 3 else mp - 9 in
  let y := yoe + era * 400 in
  (if m <=? 2 then y + 1 else y, m, d).

Definition is_leap (y : Z) : bool :=
  ((y mod 4 =? 0) && (negb (y mod 100 =? 0) || (y mod 400 =? 0)))%bool.

Definition days_in_month (y m : Z) : Z :=
  if m =? 2 then (if is_leap y then 29 else 28)
  else if ((m =? 4) || (m =? 6) || (m =? 9) || (m =? 11))%bool then 30 else 31.

Definition valid_date (y m d : Z) : bool :=
  ((1 <=? m) && (m <=? 12) && (1 <=? d) && (d <=? days_in_month y m))%bool.

(** The payload of midnight of a date, without any offset. *)
Definition midnight (y m d : Z) : Z := days_from_civil y m d * ns_per_day.

Definition digit_value (a : ascii) : option Z :=
  let n := Z.of_N (N_of_ascii a) in
  if ((48 <=? n) && (n <=? 57))%bool then Some (n - 48) else None.

(** The date a text of the form [YYYY-MM-DD] writes down. *)
Definition iso_date (s : string) : option (Z * Z * Z) :=
  match list_ascii_of_string s with
  | [y1; y2; y3; y4; h1; m1; m2; h2; d1; d2] =>
      if (Ascii.eqb h1 "-" && Ascii.eqb h2 "-")%bool then
        a ← digit_value y1; b ← digit_value y2;
        c ← digit_value y3; e ← digit_value y4;
        f ← digit_value m1; g ← digit_value m2;
        h ← digit_value d1; i ← digit_value d2;
        Some (1000 * a + 100 * b + 10 * c + e, 10 * f + g, 10 * h + i)
      else None
  | _ => None
  end.

(** [pd.to_datetime] on a text under the format [%Y-%m-%d]: a date of the
    calendar becomes midnight of that date, timezone-naive; the payload
    has to fit [datetime64[ns]], whose least value is [NaT]. *)
Definition iso_parse (s : string) : result Z :=
  match iso_date s with
  | Some (y, m, d) =>
      if valid_date y m d then
        let t := midnight y m d in
        if ((int64_min <? t) && (t <=? int64_max))%bool then Ok t
        else Raise (OutOfBoundsDatetime s)
      else Raise (ParserError s)
  | None => Raise (ParserError s)
  end.

Local Open Scope string_scope.
Local Open Scope list_scope.
Local Open Scope stdpp_scope.

(** The first text of a column, nulls stepped over. *)
Definition first_text (raw : list (option string)) : option string :=
  head (omap (fun c : option string => c) raw).

Section Loader.

(** [pd.to_datetime] on a text of a column whose first text is not of the
    ISO form: [parse_datetime first s] is what the format guessed from
    [first] makes of [s], [None] when it rejects it. *)
Variable parse_datetime : string -> string -> option Z.

(** The parser of a column, fixed by its first text. *)
Definition parser_for (first : string) (s : string) : result Z :=
  match iso_date first with
  | Some _ => iso_parse s
  | None =>
      match parse_datetime first s with
      | Some t => Ok t
      | None => Raise (ParserError s)
      end
  end.

Definition to_datetime_cell (parse : string -> result Z) (c : option string)
  : result datetime :=
  match c with
  | None => Ok None
  | Some s => do t <- parse s; Ok (Some t)
  end.

(** [pd.to_datetime(df['date_'])]: the result has dtype [datetime64[ns]]. *)
Definition to_datetime (raw : list (option string)) : result dates :=
  match first_text raw with
  | Some first =>
      do ts <- traverse (to_datetime_cell (parser_for first)) raw;
      Ok (mkDates true ts)
  | None => Ok (mkDates true (map (fun _ => None) raw))
  end.

(** Lines 22-23: only a column of dtype [object] is converted. *)
Definition normalize_dates (d : csv_dates) : result dates :=
  match d with
  | ObjectDates raw => to_datetime raw
  | TypedDates d' => Ok d'
  end.

(** Lines 22-36, on a frame that has its [date_] column. *)
Definition load_data (csv : DataFrame csv_dates) : result Table :=
  do d <- normalize_dates (date_ csv);
  Ok (rename (mkDataFrame d (columns csv))).

(** [load_data()] as a whole.  [read] is the outcome of line 19,
    [pd.read_csv(DATA_FILENAME)]: an exception, or a frame that may lack a
    [date_] column, on which [df['date_']] of line 22 raises. *)
Definition load_data_from
    (read : result (DataFrame (option csv_dates))) : result Table :=
  do csv <- read;
  match date_ csv with
  | Some d => load_data (mkDataFrame d (columns csv))
  | None => Raise (KeyError "date_")
  end.

End Loader.

(** ** Category registry *)

Definition category_mapping : list (string * string) :=
  [ ("Soundbox Hardware", "sb_hardware");
    ("Device Return", "device_return");
    ("Business Loan", "business_loan");
    ("Customer Care", "customer_care");
    ("Profile", "profile");
    ("EDC Hardware", "edc_hardware");
    ("Payment Acceptence", "payment_acceptance");
    ("Refund", "refund");
    ("Rental Charges", "rental_charges");
    ("Generic Query", "generic_query");
    ("Settlement & Deductions", "settlement_deductions");
    ("Others", "other") ].

Inductive metric_kind := sessions | messages.

Definition metric_suffix (kind : metric_kind) : string :=
  match kind with
  | sessions => "_sessions"
  | messages => "_messages"
  end.

(** [category_mapping[cat]] *)
Definition prefix_of (cat : string) : result string :=
  match dict_get category_mapping cat with
  | Some p => Ok p
  | None => Raise (KeyError cat)
  end.

(** [f"{category_mapping[cat]}_sessions"] *)
Definition intent_column (kind : metric_kind) (cat : string) : result string :=
  do p <- prefix_of cat; Ok (p ++ metric_suffix kind)%string.

(** Lines 129 and 169:
    [[k for k,v in category_mapping.items() if x.startswith(v)][0]] *)
Definition matching_labels (x : string) : list string :=
  map fst (List.filter (fun kv : string * string => String.prefix (snd kv) x) category_mapping).

Definition intent_label (x : string) : result string :=
  match matching_labels x with
  | k :: _ => Ok k
  | [] => Raise IndexError
  end.

(** The reverse index of the design notes: the label whose prefix is
    exactly [p]. *)
Fixpoint label_of_prefix_in (d : list (string * string)) (p : string) : option string :=
  match d with
  | [] => None
  | (k, v) :: d' => if String.eqb v p then Some k else label_of_prefix_in d' p
  end.

Definition label_of_prefix (p : string) : option string :=
  label_of_prefix_in category_mapping p.

(** ** Metric aggregator *)

(** [df[name]] on a frame whose labels are distinct.  (Under a label that
    two columns carry, pandas selects a frame of both; the statements
    about totals assume [NoDup (labels df)].) *)
Definition column (df : Table) (name : string) : result (list cell) :=
  match dict_get (columns df) name with
  | Some s => Ok s
  | None => Raise (KeyError name)
  end.

(** A number as numpy holds it.  A column of integers without a null
    cell has dtype [int64]; a column with a null cell has dtype [float64],
    its null cells being NaN.  Of a double the development keeps the
    integer it holds, which is the double itself while the magnitudes
    involved stay within [2 ^ 53]; statements about doubles assume it. *)
Inductive number :=
| Int64 (z : Z)
| Float64 (z : Z).

Definition number_value (n : number) : Z :=
  match n with
  | Int64 z => z
  | Float64 z => z
  end.

(** The 64-bit two's complement integer congruent to [z]: what an [int64]
    addition leaves of the exact sum [z]. *)
Definition wrap64 (z : Z) : Z := (z + 2 ^ 63) mod 2 ^ 64 - 2 ^ 63.

Definition is_null (c : cell) : bool :=
  match c with
  | Some _ => false
  | None => true
  end.

Definition has_null (s : list cell) : bool := existsb is_null s.

(** One addition of an [int64] reduction: it wraps around. *)
Definition int64_step (acc : Z) (c : cell) : Z :=
  match c with
  | Some v => wrap64 (acc + v)
  | None => acc
  end.

(** One step of a [float64] reduction with [skipna=True]: a null cell is
    stepped over. *)
Definition sum_step (acc : Z) (c : cell) : Z :=
  match c with
  | Some v => acc + v
  | None => acc
  end.

(** [Series.sum()] with its default [skipna=True], by the dtype of the
    column; the running total starts at 0. *)
Definition series_sum (s : list cell) : number :=
  if has_null s then Float64 (fold_left sum_step s 0)
  else Int64 (fold_left int64_step s 0).

(** [df[name].sum()] *)
Definition column_total (df : Table) (name : string) : result number :=
  do s <- column df name; Ok (series_sum s).

Definition total_sessions (df : Table) : result number :=
  column_total df "overall_sessions".
Definition total_messages (df : Table) : result number :=
  column_total df "overall_messages".

(** ** Long-form reshaper *)

(** One row of the melted frame: columns [date_], [Intent] and
    [Sessions] (or [Messages]). *)
Record LongRecord := mkRecord {
  m_date : datetime;
  Intent : string;
  Value : option Q
}.

Definition nrows (df : Table) : nat := length (stamps (date_ df)).

(** The rows [melt] makes of one value column: the id column beside the
    column's cells, every row tagged with the column's label. *)
Definition melt_column (ds : list datetime) (var : string) (vals : list cell)
  : list LongRecord :=
  zip_with (fun d v => mkRecord d var (inject_Z <$> v)) ds vals.

(** The labels of [value_vars] that the frame lacks, in the order of
    [value_vars]. *)
Definition missing_labels (df : Table) (value_vars : list string) : list string :=
  List.filter (fun var => match dict_get (columns df) var with
                          | Some _ => false
                          | None => true
                          end) value_vars.

(** The value columns stacked one after the other, in the order of
    [value_vars]. *)
Definition stack_columns (df : Table) (value_vars : list string)
  : result (list LongRecord) :=
  do blocks <- traverse
      (fun var => do vals <- column df var;
                  Ok (melt_column (stamps (date_ df)) var vals)) value_vars;
  Ok (mjoin blocks).

(** [df.melt(id_vars=['date_'], value_vars=..., var_name='Intent', ...)]
    on a frame whose labels are distinct, for value labels without
    repetition: the labels are looked up first, and if the frame lacks
    some of them [melt] raises a [KeyError] that lists them all (in the
    order of [value_vars] here; the order and the wording of the message
    vary with the version of pandas); otherwise the value columns are
    stacked. *)
Definition melt (df : Table) (value_vars : list string) : result (list LongRecord) :=
  match missing_labels df value_vars with
  | [] => stack_columns df value_vars
  | missing => Raise (MissingColumns missing)
  end.

(** [melted['Intent'] = melted['Intent'].apply(lambda x: ...)] *)
Definition relabel (melted : list LongRecord) : result (list LongRecord) :=
  traverse (fun r => do k <- intent_label (Intent r);
                     Ok (mkRecord (m_date r) k (Value r))) melted.

(** [Series.min()] and [Series.max()] step over nulls and are null on a
    series without a value. *)
Definition min_step (acc c : option Z) : option Z :=
  match acc, c with
  | Some a, Some v => Some (Z.min a v)
  | Some a, None => Some a
  | None, _ => c
  end.

Definition series_min (s : list (option Z)) : option Z := fold_left min_step s None.

Definition max_step (acc c : option Q) : option Q :=
  match acc, c with
  | Some a, Some v => Some (if Qle_bool a v then v else a)
  | Some a, None => Some a
  | None, _ => c
  end.

Definition series_max (s : list (option Q)) : option Q := fold_left max_step s None.

(** [s.iloc[0]] *)
Definition iloc0 {A} (s : list A) : result A :=
  match s with
  | x :: _ => Ok x
  | [] => Raise IndexError
  end.

Definition headroom : Q := 1.05%Q.

(** [pd.concat([melted, row], ignore_index=True)] *)
Definition concat_row (melted : list LongRecord) (row : LongRecord)
  : list LongRecord := melted ++ [row].

(** Line 136 (and 176): [zero_row]. *)
Definition zero_row (min_date : datetime) (melted : list LongRecord)
  : result LongRecord :=
  do first <- iloc0 (map Intent melted);
  Ok (mkRecord min_date first (Some 0%Q)).

(** Lines 140-141 (and 180-181): [max_val] and [top_buffer], on the frame
    they are handed. *)
Definition top_buffer (min_date : datetime) (melted : list LongRecord)
  : result LongRecord :=
  let max_val := series_max (map Value melted) in
  do first <- iloc0 (map Intent melted);
  Ok (mkRecord min_date first ((fun m => Qmult m headroom) <$> max_val)).

(** Lines 133-142 (and 173-182): the zero baseline row is concatenated
    first, [top_buffer] is then made of the frame that already holds it. *)
Definition pad (melted : list LongRecord) : result (list LongRecord) :=
  match melted with
  | [] => Ok melted
  | _ :: _ =>
      let min_date := series_min (map m_date melted) in
      do row <- zero_row min_date melted;
      let melted := concat_row melted row in
      do row <- top_buffer min_date melted;
      Ok (concat_row melted row)
  end.

(** What a chart section hands to streamlit. *)
Inductive view :=
| line_chart (data : list LongRecord)
| info (body : string).

(** Lines 115-152 for [sessions], 116 and 160-192 for [messages]. *)
Definition chart_section (kind : metric_kind) (filtered_df : Table)
    (selected_categories : list string) : result view :=
  do selected_intent <- traverse (intent_column kind) selected_categories;
  match selected_categories with
  | [] => Ok (info "Please select at least one category.")
  | _ :: _ =>
      do melted <- melt filtered_df selected_intent;
      do melted <- relabel melted;
      do melted <- pad melted;
      Ok (line_chart melted)
  end.

Definition chart_data (v : view) : list LongRecord :=
  match v with
  | line_chart data => data
  | info _ => []
  end.

(** The records a section charts. *)
Definition reshape (df : Table) (selected_categories : list string)
    (kind : metric_kind) : result (list LongRecord) :=
  do v <- chart_section kind df selected_categories; Ok (chart_data v).

(** ** The script over a store of frames *)

(** The frames the script holds live in a store; a variable names a
    location, and two variables may name the same one ([filtered_df = df]). *)
Abbreviation loc := positive.

Inductive object :=
| Wide (t : Table)
| Long (rows : list LongRecord).

Record state := mkState {
  heap : gmap loc object;
  var_df : loc;
  var_filtered_df : loc;
  var_sessions_melted : option loc;
  var_messages_melted : option loc
}.

Definition set_heap (h : gmap loc object) (s : state) : state :=
  mkState h (var_df s) (var_filtered_df s)
          (var_sessions_melted s) (var_messages_melted s).

Definition melted_var (kind : metric_kind) (s : state) : option loc :=
  match kind with
  | sessions => var_sessions_melted s
  | messages => var_messages_melted s
  end.

Definition set_melted_var (kind : metric_kind) (l : loc) (s : state) : state :=
  match kind with
  | sessions =>
      mkState (heap s) (var_df s) (var_filtered_df s) (Some l) (var_messages_melted s)
  | messages =>
      mkState (heap s) (var_df s) (var_filtered_df s) (var_sessions_melted s) (Some l)
  end.

Definition melted_name (kind : metric_kind) : string :=
  match kind with
  | sessions => "sessions_melted"
  | messages => "messages_melted"
  end.

(** A statement: it may change the store and may raise. *)
Definition M (A : Type) : Type := state -> state * result A.

Definition ret {A} (a : A) : M A := fun s => (s, Ok a).

Definition lift {A} (r : result A) : M A := fun s => (s, r).

Definition seq {A B} (m : M A) (k : A -> M B) : M B :=
  fun s =>
    match m s with
    | (s', Ok a) => k a s'
    | (s', Raise e) => (s', Raise e)
    end.

Notation "'run' x <- m ; k" := (seq m (fun x => k))
  (at level 10, x name, m at level 100, k at level 200).

(** [filtered_df], read: the table the variable names. *)
Definition get_filtered_df : M Table :=
  fun s =>
    match heap s !! var_filtered_df s with
    | Some (Wide t) => (s, Ok t)
    | Some (Long _) => (s, Raise TypeError)
    | None => (s, Raise (NameError "filtered_df"))
    end.

(** [sessions_melted], read. *)
Definition get_melted (kind : metric_kind) : M (list LongRecord) :=
  fun s =>
    match melted_var kind s with
    | Some l =>
        match heap s !! l with
        | Some (Long rows) => (s, Ok rows)
        | Some (Wide _) => (s, Raise TypeError)
        | None => (s, Raise (NameError (melted_name kind)))
        end
    | None => (s, Raise (NameError (melted_name kind)))
    end.

(** [sessions_melted = <a new frame>]: [melt] and [pd.concat] build a new
    object, the variable is bound to it. *)
Definition bind_melted (kind : metric_kind) (rows : list LongRecord) : M unit :=
  fun s =>
    let l := fresh (dom (heap s)) in
    (set_melted_var kind l (set_heap (<[l := Long rows]> (heap s)) s), Ok tt).

(** [sessions_melted['Intent'] = ...]: the object the variable names is
    updated in place. *)
Definition set_melted_column (kind : metric_kind) (rows : list LongRecord) : M unit :=
  fun s =>
    match melted_var kind s with
    | Some l => (set_heap (<[l := Long rows]> (heap s)) s, Ok tt)
    | None => (s, Raise (NameError (melted_name kind)))
    end.

(** [filtered_df[name].sum()] *)
Definition run_total (name : string) : M number :=
  run t <- get_filtered_df;
  lift (column_total t name).

(** Lines 115-152 (and 116, 160-192), statement by statement. *)
Definition run_section (kind : metric_kind) (selected_categories : list string)
  : M view :=
  run selected_intent <- lift (traverse (intent_column kind) selected_categories);
  match selected_categories with
  | [] => ret (info "Please select at least one category.")
  | _ :: _ =>
      run filtered <- get_filtered_df;
      run melted <- lift (melt filtered selected_intent);
      run _ <- bind_melted kind melted;
      run melted <- get_melted kind;
      run relabelled <- lift (relabel melted);
      run _ <- set_melted_column kind relabelled;
      run melted <- get_melted kind;
      match melted with
      | [] => ret (line_chart melted)
      | _ :: _ =>
          let min_date := series_min (map m_date melted) in
          run row <- lift (zero_row min_date melted);
          run _ <- bind_melted kind (concat_row melted row);
          run melted <- get_melted kind;
          run row <- lift (top_buffer min_date melted);
          run _ <- bind_melted kind (concat_row melted row);
          run melted <- get_melted kind;
          ret (line_chart melted)
      end
  end.

Inductive call :=
| Total (name : string)
| Chart (kind : metric_kind) (selected_categories : list string).

Inductive output :=
| Metric (total : number)
| Rendered (v : view).

Definition run_call (c : call) : M output :=
  match c with
  | Total name => run z <- run_total name; ret (Metric z)
  | Chart kind sel => run v <- run_section kind sel; ret (Rendered v)
  end.

(** A run of calls; a call that raises ends its own rendering only. *)
Fixpoint run_calls (cs : list call) (s : state) : state * list (result output) :=
  match cs with
  | [] => (s, [])
  | c :: cs' =>
      let '(s1, r) := run_call c s in
      let '(s2, rs) := run_calls cs' s1 in
      (s2, r :: rs)
  end.

(** ** Displayed metrics and chart lines *)

(** [str(n)] of an integer. *)
Definition str (n : Z) : string := NilZero.string_of_int (Z.to_int n).

(** The [','] format option: the digits are grouped by three from the
    right.  The digits come last digit first; [count] is the number of
    digits already in the current group. *)
Fixpoint insert_commas (rev_digits : list ascii) (count : nat) : list ascii :=
  match rev_digits with
  | [] => []
  | d :: rest =>
      if (count =? 3)%nat then ","%char :: d :: insert_commas rest 1
      else d :: insert_commas rest (S count)
  end.

Definition group_thousands (digits : string) : string :=
  string_of_list_ascii
    (rev (insert_commas (rev (list_ascii_of_string digits)) 0)).

(** [f"{n:,}"] *)
Definition format_thousands (n : Z) : string :=
  match str n with
  | String "-" digits => String "-" (group_thousands digits)
  | digits => group_thousands digits
  end.

(** [f"{total:,}"] of a number: a double that holds an integer (of
    magnitude below [10 ^ 16]) is written with its fraction [.0]. *)
Definition format_number (total : number) : string :=
  match total with
  | Int64 z => format_thousands z
  | Float64 z => (format_thousands z ++ ".0")%string
  end.

(** Lines 68-69 (and 72-73, 104-105, 108-109): the text [st.metric] is
    given for a column. *)
Definition metric_text (df : Table) (name : string) : result string :=
  do total <- column_total df name; Ok (format_number total).

(** Lines 85-93: the options and the default of the multiselect. *)
Definition multiselect_options : list string := map fst category_mapping.

Definition default_categories : list string :=
  [ "Soundbox Hardware"; "Business Loan"; "Profile"; "Payment Acceptence";
    "Settlement & Deductions"; "EDC Hardware" ].

(** Lines 144-150, [color='Intent']: the points of the line drawn for one
    value of [Intent]. *)
Definition line_points (label : string) (data : list LongRecord)
  : list LongRecord :=
  List.filter (fun r => String.eqb (Intent r) label) data.

(** * Vocabulary of the statements *)

(** A frame as pandas builds it from a file: every column is as long as
    the date column and no label occurs twice. *)
Definition well_formed (df : Table) : Prop :=
  Forall (fun c : string * list cell => length (snd c) = nrows df) (columns df)
  /\ NoDup (labels df).

(** What the multiselect can return: registry labels, each at most once. *)
Definition selection (selected_categories : list string) : Prop :=
  NoDup selected_categories
  /\ Forall (fun cat => is_Some (dict_get category_mapping cat)) selected_categories.

(** The derived columns of the selected categories are in the frame. *)
Definition columns_exist (df : Table) (kind : metric_kind)
    (selected_categories : list string) : Prop :=
  Forall (fun cat => forall p, dict_get category_mapping cat = Some p ->
            is_Some (dict_get (columns df) (p ++ metric_suffix kind)%string))
         selected_categories.

Definition legacy_names : list string := map fst rename_map.
Definition canonical_names : list string := map snd rename_map.

(** The calendar date a payload falls on, and the nanoseconds of that
    day that have passed. *)
Definition calendar_date (t : Z) : Z * Z * Z := civil_from_days (t / ns_per_day).
Definition time_of_day (t : Z) : Z := t mod ns_per_day.

(** [t] is the text [s] parsed into a date: the same calendar date as the
    text writes down, at midnight, with no timezone offset applied. *)
Definition same_calendar_date (s : string) (t : Z) : Prop :=
  exists y m d,
    iso_date s = Some (y, m, d)
    /\ valid_date y m d = true
    /\ t = midnight y m d
    /\ calendar_date t = (y, m, d)
    /\ time_of_day t = 0.

(** A text [YYYY-MM-DD] of a date of the calendar within the range of
    [datetime64[ns]]. *)
Definition iso_text (s : string) : Prop :=
  exists y m d,
    iso_date s = Some (y, m, d)
    /\ valid_date y m d = true
    /\ int64_min < midnight y m d <= int64_max.

(** What a cell adds to a total: a null cell adds nothing. *)
Definition contribution (c : cell) : Z := default 0 c.

(** The arithmetic sum of a column, nulls counted as 0. *)
Definition arithmetic_sum (s : list cell) : Z :=
  foldr (fun c acc => contribution c + acc) 0 s.

(** Every cell of the column that holds a value holds a 64-bit integer. *)
Definition int64_cells (s : list cell) : Prop :=
  Forall (fun c : cell => forall v, c = Some v -> int64_min <= v <= int64_max) s.

(** The magnitudes of the column add up to at most [2 ^ 53]: every double
    met while adding the column up, in whatever order, holds an integer
    exactly. *)
Definition float_exact (s : list cell) : Prop :=
  foldr (fun c acc => Z.abs (contribution c) + acc) 0 s <= 2 ^ 53.

(** The rows one selected category contributes: one per table row, in
    table order, under the category's label. *)
Definition category_rows (df : Table) (kind : metric_kind) (cat : string)
  : list LongRecord :=
  match dict_get category_mapping cat with
  | Some p =>
      match dict_get (columns df) (p ++ metric_suffix kind)%string with
      | Some vals => melt_column (stamps (date_ df)) cat vals
      | None => []
      end
  | None => []
  end.

(** The real records of a chart: the selected categories' rows, one
    category after the other. *)
Definition real_records (df : Table) (kind : metric_kind)
    (selected_categories : list string) : list LongRecord :=
  mjoin (map (category_rows df kind) selected_categories).

(** [d] is the least non-null value of [s], or null when [s] has none. *)
Definition is_series_min (s : list (option Z)) (d : option Z) : Prop :=
  match d with
  | None => Forall (fun c => c = None) s
  | Some z => Some z ∈ s /\ forall z', Some z' ∈ s -> z <= z'
  end.

(** [m] is the greatest value of [vals] and of the zero baseline. *)
Definition is_padded_max (vals : list (option Q)) (m : Q) : Prop :=
  (Some m ∈ vals \/ m = 0%Q)
  /\ Qle 0 m
  /\ (forall v, Some v ∈ vals -> Qle v m).

(** Every counter of the table is non-negative (a null cell holds no
    counter). *)
Definition non_negative (df : Table) : Prop :=
  Forall (fun c : string * list cell =>
            Forall (fun v : cell => forall z, v = Some z -> 0 <= z) (snd c))
         (columns df).

(** The same call on the table itself. *)
Definition call_on (t : Table) (c : call) : result output :=
  match c with
  | Total name => do z <- column_total t name; Ok (Metric z)
  | Chart kind sel => do v <- chart_section kind t sel; Ok (Rendered v)
  end.

(** The store after line 98: [df] and [filtered_df] name the loaded table. *)
Definition after_load (t : Table) : state :=
  mkState {[ 1%positive := Wide t ]} 1%positive 1%positive None None.

(** [df] and [filtered_df] name one object, which is the table [t]. *)
Definition holds_table (t : Table) (s : state) : Prop :=
  heap s !! var_df s = Some (Wide t) /\ var_filtered_df s = var_df s.

Definition melted_is (kind : metric_kind) (rows : list LongRecord) (s : state) : Prop :=
  exists l, melted_var kind s = Some l
    /\ l <> var_df s
    /\ heap s !! l = Some (Long rows).

(** The number of rows [pd.read_csv] has read. *)
Definition csv_rows (d : csv_dates) : nat :=
  match d with
  | ObjectDates raw => length raw
  | TypedDates d' => length (stamps d')
  end.

(** The file holds no column under a legacy label beside a column under
    the canonical label it is renamed to. *)
Definition no_rename_clash (csv : DataFrame csv_dates) : Prop :=
  forall old new, (old, new) ∈ rename_map ->
    old ∈ labels csv -> new ∉ labels csv.

(** The file has the column of a category, under its label of today or
    under the legacy label that is renamed to it. *)
Definition csv_has_column (csv : DataFrame csv_dates) (name : string) : Prop :=
  name ∈ labels csv
  \/ exists old, (old, name) ∈ rename_map /\ old ∈ labels csv.

(** [s.replace(",", "")] *)
Definition remove_commas (s : string) : string :=
  string_of_list_ascii
    (List.filter (fun a => negb (Ascii.eqb a ",")) (list_ascii_of_string s)).

(** The integer a decimal text denotes. *)
Definition parse_int (s : string) : option Z :=
  option_map Z.of_int (NilZero.int_of_string s).

(** The characters of a text, the last one first. *)
Definition from_right (s : string) : list ascii := rev (list_ascii_of_string s).

Definition is_digit (a : ascii) : bool :=
  existsb (Ascii.eqb a) (list_ascii_of_string "0123456789").

Definition other_kind (kind : metric_kind) : metric_kind :=
  match kind with
  | sessions => messages
  | messages => sessions
  end.

(** Every frame of [s] is still in [s'], at its location and unchanged. *)
Definition frames_kept (s s' : state) : Prop :=
  forall l o, heap s !! l = Some o -> heap s' !! l = Some o.

(** [s'] is a state of a section of kind [kind] started in [s]: the
    table is named as before, the frames of [s] are kept and the melted
    frame of the other section is still the one it was. *)
Definition section_state (t : Table) (kind : metric_kind) (s s' : state) : Prop :=
  holds_table t s /\ holds_table t s'
  /\ var_df s' = var_df s
  /\ frames_kept s s'
  /\ melted_var (other_kind kind) s' = melted_var (other_kind kind) s.

(** The melted frame of the section is a frame the section has built. *)
Definition melted_fresh (kind : metric_kind) (rows : list LongRecord)
    (s s' : state) : Prop :=
  exists l, melted_var kind s' = Some l
    /\ heap s' !! l = Some (Long rows)
    /\ heap s !! l = None.

(** ** The claims that fail, as the specification words them *)

(** The claim of C4 as written: after a load the date column is of a
    date/time type. *)
Definition dates_always_datetime : Prop :=
  forall parse csv df, load_data parse csv = Ok df -> is_datetime (date_ df) = true.

(** The claim of C1 as written: the real records are in row-major order,
    the record of row [r] and of the [c]-th selected category at position
    [r * number of selected categories + c]. *)
Definition emits_row_major : Prop :=
  forall (df : Table) sel kind out,
    well_formed df -> selection sel -> columns_exist df kind sel -> sel <> [] ->
    reshape df sel kind = Ok out ->
    forall r c cat p vals d v,
      sel !! c = Some cat ->
      dict_get category_mapping cat = Some p ->
      dict_get (columns df) (p ++ metric_suffix kind)%string = Some vals ->
      stamps (date_ df) !! r = Some d ->
      vals !! r = Some v ->
      out !! (r * length sel + c)%nat = Some (mkRecord d cat (inject_Z <$> v)).

(** The claim of C2 as written: the maximum is the one of the real records
    alone, taken before the zero baseline record is there. *)
Definition headroom_from_real_max : Prop :=
  forall (df : Table) sel kind real zero top,
    well_formed df -> selection sel -> columns_exist df kind sel -> sel <> [] ->
    real = real_records df kind sel ->
    reshape df sel kind = Ok (real ++ [zero; top]) ->
    exists m v,
      series_max (map Value real) = Some m
      /\ Value top = Some v
      /\ Qeq v (Qmult m headroom).

(** The claim of C3 as written: the second synthetic record carries 1.05
    times the maximum real value. *)
Definition padding_from_real_max : Prop :=
  forall (df : Table) sel kind,
    well_formed df -> selection sel -> columns_exist df kind sel ->
    sel <> [] -> (0 < nrows df)%nat ->
    exists real zero top m v,
      reshape df sel kind = Ok (real ++ [zero; top])
      /\ length real = (length sel * nrows df)%nat
      /\ Value zero = Some 0%Q
      /\ Some m ∈ map Value real
      /\ (forall v', Some v' ∈ map Value real -> Qle v' m)
      /\ Value top = Some v
      /\ Qeq v (Qmult m headroom).

(** The claim of C6 as written: the total of an existing column is the
    arithmetic sum of its values over all rows. *)
Definition total_is_arithmetic_sum : Prop :=
  forall (df : Table) i name s,
    NoDup (labels df) ->
    columns df !! i = Some (name, s) ->
    int64_cells s ->
    exists total,
      column_total df name = Ok total /\ number_value total = arithmetic_sum s.

(** ** Sample tables *)

Definition legacy_csv : DataFrame csv_dates :=
  mkDataFrame (ObjectDates [Some "2024-11-01"; Some "2024-11-02"])
    [ ("overall_sessions", [Some 5; Some 7]);
      ("sb_sessions", [Some 1; Some 2]);
      ("sb_messages", [Some 3; Some 4]);
      ("edc_sessions", [Some 5; Some 6]);
      ("edc_messages", [Some 7; Some 8]);
      ("payment_acceptence_sessions", [Some 9; None]);
      ("payment_acceptence_messages", [None; Some 10]) ].

(** A stand-in for the pandas parser of texts in another form than
    [YYYY-MM-DD]: the digits of the text. *)
Fixpoint digits_of (s : string) (acc : Z) : Z :=
  match s with
  | EmptyString => acc
  | String a s' =>
      let n := Z.of_N (Ascii.N_of_ascii a) - 48 in
      digits_of s' (if ((0 <=? n)%Z && (n <=? 9)%Z)%bool then 10 * acc + n else acc)
  end.

Definition parse_digits (first s : string) : option Z := Some (digits_of s 0).

Definition numeric_dates_csv : DataFrame csv_dates :=
  mkDataFrame (TypedDates (mkDates false [Some 20241101; Some 20241102]))
    [("overall_sessions", [Some 5; Some 7])].

Definition partial_df : Table :=
  mkDataFrame (mkDates true [Some 1; Some 2; Some 3; Some 4])
    [ ("overall_messages", [Some 4; Some 6; Some 8; Some 2]);
      ("overall_sessions", [Some 5; None; Some 7; Some 3]) ].

Definition huge_df : Table :=
  mkDataFrame (mkDates true [Some 20240101; Some 20240102])
    [ ("overall_messages", [Some 4; Some 6]);
      ("overall_sessions", [Some 9223372036854775807; Some 1]) ].

Definition no_rows_df : Table :=
  mkDataFrame (mkDates true [])
    [("sb_hardware_sessions", []); ("profile_sessions", [])].

Definition two_by_two_df : Table :=
  mkDataFrame (mkDates true [Some 20240101; Some 20240102])
    [ ("sb_hardware_sessions", [Some 10; Some 20]);
      ("profile_sessions", [Some 1; Some 2]) ].

Definition two_categories : list string := ["Soundbox Hardware"; "Profile"].

Definition negative_df : Table :=
  mkDataFrame (mkDates true [Some 20240101; Some 20240102])
    [("sb_hardware_sessions", [Some (-10); Some (-20)])].

Definition one_row_negative_df : Table :=
  mkDataFrame (mkDates true [Some 20240101])
    [ ("sb_hardware_messages", [Some (-3)]);
      ("profile_messages", [Some (-8)]) ].

Definition dashboard_calls : list call :=
  [ Total "overall_sessions";
    Chart sessions two_categories;
    Chart messages two_categories;
    Chart sessions [];
    Total "sb_hardware_sessions" ].

Definition clashing_csv : DataFrame csv_dates :=
  mkDataFrame (TypedDates (mkDates true [Some 20241101]))
    [("sb_sessions", [Some 1]); ("sb_hardware_sessions", [Some 2])].

Definition both_kinds_df : Table :=
  mkDataFrame (mkDates true [Some 20240101; Some 20240102])
    [ ("profile_sessions", [Some 1; Some 2]);
      ("profile_messages", [Some 30; None]) ].

Definition idle_df : Table :=
  mkDataFrame (mkDates true [Some 20240101; Some 20240102; Some 20240103])
    [("refund_sessions", [Some 0; None; Some 0])].

Definition busy_df : Table :=
  mkDataFrame (mkDates true [Some 20240101; Some 20240102; Some 20240103])
    [ ("overall_messages", [Some 2400000; Some 0; Some 69134]);
      ("overall_sessions", [Some 1200000; None; Some 34567]) ].

Definition default_csv : DataFrame csv_dates :=
  mkDataFrame (ObjectDates [Some "2024-11-01"; Some "2024-11-02"])
    [ ("overall_sessions", [Some 21; Some 25]);
      ("sb_sessions", [Some 1; Some 2]);
      ("business_loan_sessions", [Some 3; Some 4]);
      ("profile_sessions", [Some 5; Some 6]);
      ("payment_acceptence_sessions", [Some 7; None]);
      ("settlement_deductions_sessions", [Some 2; Some 8]);
      ("edc_sessions", [Some 3; Some 5]) ].

(** * Results *)

(** ** Registry lookups *)

Lemma dict_get_elem_of {V} (d : list (string * V)) k v :
  dict_get d k = Some v -> (k, v) ∈ d.
Proof.
  induction d as [|[k' v'] d IH]; simpl; [discriminate|].
  destruct (String.eqb_spec k' k) as [->|_].
  - intros [= ->]. left.
  - intros H. right. auto.
Qed.

Lemma registry_cases (P : string -> string -> Prop) :
  Forall (fun kv : string * string => P (fst kv) (snd kv)) category_mapping ->
  forall label p, (label, p) ∈ category_mapping -> P label p.
Proof.
  intros HF label p Hin. rewrite Forall_forall in HF. exact (HF _ Hin).
Qed.

Ltac registry_cases :=
  match goal with
  | |- forall label p, (label, p) ∈ category_mapping -> @?Q label p =>
      apply (registry_cases Q);
      repeat first [apply List.Forall_cons | apply List.Forall_nil];
      cbv beta; simpl fst; simpl snd
  end.

Lemma matching_labels_derived kind :
  forall label p, (label, p) ∈ category_mapping ->
    matching_labels (p ++ metric_suffix kind) = [label].
Proof. destruct kind; registry_cases; reflexivity. Qed.

Lemma intent_label_derived kind cat p :
  dict_get category_mapping cat = Some p ->
  intent_label (p ++ metric_suffix kind) = Ok cat.
Proof.
  intros H%dict_get_elem_of. unfold intent_label.
  by rewrite (matching_labels_derived kind cat p H).
Qed.

(** C8. For each of the 12 registry entries and both metric kinds, the
    first-match scan over the registry finds exactly one entry for the
    derived column name [prefix ++ "_" ++ kind], so it is defined there and
    returns the label that the exact reverse lookup by prefix returns; and
    any registry entry whose prefix is a string-prefix of that column name
    is the entry itself. *)
Theorem first_match_is_reverse_lookup :
  forall label p kind, (label, p) ∈ category_mapping ->
    matching_labels (p ++ metric_suffix kind) = [label]
    /\ intent_label (p ++ metric_suffix kind) = Ok label
    /\ label_of_prefix p = Some label
    /\ (forall label' p', (label', p') ∈ category_mapping ->
          String.prefix p' (p ++ metric_suffix kind) = true ->
          label' = label /\ p' = p).
Proof.
  intros label p kind Hin. revert label p Hin.
  destruct kind; registry_cases;
    (split; [reflexivity|]; split; [reflexivity|]; split; [reflexivity|]);
    registry_cases; vm_compute; first [discriminate | intros _; split; reflexivity].
Qed.

Lemma first_match_is_reverse_lookup_witness :
  intent_label "other_messages" = Ok "Others"
  /\ label_of_prefix "other" = Some "Others".
Proof.
  assert (Hin : ("Others", "other") ∈ category_mapping)
    by (unfold category_mapping; set_solver).
  destruct (first_match_is_reverse_lookup "Others" "other" messages Hin)
    as (_ & H1 & H2 & _).
  split; [exact H1 | exact H2].
Defined.

(** ** Dataset loader *)

Lemma dict_get_None {V} (d : list (string * V)) k :
  dict_get d k = None -> k ∉ map fst d.
Proof.
  induction d as [|[k' v'] d IH]; simpl.
  - intros _. apply not_elem_of_nil.
  - destruct (String.eqb_spec k' k) as [->|Hne]; [discriminate|].
    intros H. apply not_elem_of_cons. split; [congruence | auto].
Qed.

Lemma rename_map_cases (P : string -> string -> Prop) :
  Forall (fun kv : string * string => P (fst kv) (snd kv)) rename_map ->
  forall old new, (old, new) ∈ rename_map -> P old new.
Proof.
  intros HF old new Hin. rewrite Forall_forall in HF. exact (HF _ Hin).
Qed.

Ltac rename_map_cases :=
  match goal with
  | |- forall old new, (old, new) ∈ rename_map -> @?Q old new =>
      apply (rename_map_cases Q);
      repeat first [apply List.Forall_cons | apply List.Forall_nil];
      cbv beta; simpl fst; simpl snd
  end.

Lemma rename_label_legacy :
  forall old new, (old, new) ∈ rename_map -> rename_label old = new.
Proof. rename_map_cases; reflexivity. Qed.

Lemma canonical_not_legacy :
  forall old new, (old, new) ∈ rename_map -> new ∉ legacy_names.
Proof.
  rename_map_cases; apply (bool_decide_unpack _); vm_compute; exact I.
Qed.

Lemma rename_label_other name : name ∉ legacy_names -> rename_label name = name.
Proof.
  intros Hn. unfold rename_label.
  destruct (dict_get rename_map name) as [new|] eqn:E; [|reflexivity].
  apply dict_get_elem_of in E. exfalso. apply Hn.
  unfold legacy_names. apply list_elem_of_fmap. by exists (name, new).
Qed.

Lemma rename_label_not_legacy name : rename_label name ∉ legacy_names.
Proof.
  unfold rename_label.
  destruct (dict_get rename_map name) as [new|] eqn:E.
  - apply dict_get_elem_of in E. by apply (canonical_not_legacy name).
  - by apply dict_get_None.
Qed.

Lemma rename_lookup {D} (df : DataFrame D) i :
  columns (rename df) !! i
  = (fun c : string * list cell => (rename_label (fst c), snd c)) <$> columns df !! i.
Proof. unfold rename. simpl. apply list_lookup_fmap. Qed.

Lemma load_data_columns parse csv df :
  load_data parse csv = Ok df ->
  columns df = columns (rename csv).
Proof.
  unfold load_data. destruct (normalize_dates parse (date_ csv)); simpl; [|discriminate].
  by intros [= <-].
Qed.

(** The renaming is by exact, case-sensitive match. *)
Example rename_is_case_sensitive :
  rename_label "SB_sessions" = "SB_sessions"
  /\ rename_label "sb_sessions " = "sb_sessions "
  /\ rename_label "sb_sessions" = "sb_hardware_sessions".
Proof. repeat split. Qed.



Lemma traverse_Ok_Forall2 {A B} (f : A -> result B) (l : list A) (bs : list B) :
  traverse f l = Ok bs -> Forall2 (fun a b => f a = Ok b) l bs.
Proof.
  revert bs. induction l as [|a l IH]; simpl; intros bs.
  - intros [= <-]. constructor.
  - destruct (f a) as [b|] eqn:Ea; simpl; [|discriminate].
    destruct (traverse f l) as [bs'|]; simpl; [|discriminate].
    intros [= <-]. constructor; auto.
Qed.

Lemma traverse_Ok_intro {A B} (f : A -> result B) (g : A -> B) (l : list A) :
  Forall (fun a => f a = Ok (g a)) l -> traverse f l = Ok (map g l).
Proof.
  induction 1 as [|a l Ha _ IH]; simpl; [reflexivity|].
  by rewrite Ha, IH.
Qed.

(** *** The calendar *)

Local Open Scope Z_scope.

Lemma yoe_recovered yoe doy :
  0 <= yoe < 400 -> 0 <= doy <= 365 ->
  (doy = 365 ->
   (yoe + 1) mod 4 = 0 /\ ((yoe + 1) mod 100 <> 0 \/ (yoe + 1) mod 400 = 0)) ->
  let doe := yoe * 365 + yoe / 4 - yoe / 100 + doy in
  0 <= doe < 146097
  /\ (doe - doe / 1460 + doe / 36524 - doe / 146096) / 365 = yoe.
Proof.
  intros Hy Hd Hleap doe. subst doe.
  assert (Hc : exists c r, yoe = 100 * c + r /\ 0 <= c < 4 /\ 0 <= r < 100).
  { exists (yoe / 100), (yoe mod 100). split; [|split].
    - apply Z.div_mod. lia.
    - split; [apply Z.div_pos; lia | apply Z.div_lt_upper_bound; lia].
    - apply Z.mod_pos_bound. lia. }
  destruct Hc as (c & r & -> & Hc & Hr).
  assert (c = 0 \/ c = 1 \/ c = 2 \/ c = 3) as [->|[->|[->| ->]]] by lia;
    Z.div_mod_to_equations; lia.
Qed.

Ltac eval_tests :=
  repeat match goal with
  | |- context [Z.ltb ?a ?b] =>
      let v := eval vm_compute in (Z.ltb a b) in change (Z.ltb a b) with v
  | |- context [Z.eqb ?a ?b] =>
      let v := eval vm_compute in (Z.eqb a b) in change (Z.eqb a b) with v
  | H : context [Z.eqb ?a ?b] |- _ =>
      let v := eval vm_compute in (Z.eqb a b) in change (Z.eqb a b) with v in H
  end; cbn [orb] in *; cbv iota in *.

Lemma month_day_recovered y m d :
  1 <= m <= 12 -> 1 <= d <= days_in_month y m ->
  let mp := if 2 <? m then m - 3 else m + 9 in
  let doy := (153 * mp + 2) / 5 + d - 1 in
  0 <= doy <= 365
  /\ (doy = 365 -> m = 2 /\ is_leap y = true)
  /\ (5 * doy + 2) / 153 = mp
  /\ doy - (153 * mp + 2) / 5 + 1 = d
  /\ (if mp <? 10 then mp + 3 else mp - 9) = m.
Proof.
  intros Hm Hd. unfold days_in_month in Hd. cbv zeta.
  assert (m = 1 \/ m = 2 \/ m = 3 \/ m = 4 \/ m = 5 \/ m = 6 \/ m = 7 \/ m = 8
          \/ m = 9 \/ m = 10 \/ m = 11 \/ m = 12) as Hcases by lia.
  repeat (destruct Hcases as [->|Hcases]); try subst m; eval_tests;
    try (destruct (is_leap y) eqn:E);
    (split; [Z.div_mod_to_equations; lia|]);
    (split; [intros H365; split;
             first [reflexivity | exfalso; Z.div_mod_to_equations; lia]|]);
    (split; [Z.div_mod_to_equations; lia|]);
    (split; [Z.div_mod_to_equations; lia|]);
    eval_tests; lia.
Qed.

Lemma civil_from_days_spec era yoe doy :
  0 <= yoe < 400 -> 0 <= doy <= 365 ->
  (doy = 365 ->
   (yoe + 1) mod 4 = 0 /\ ((yoe + 1) mod 100 <> 0 \/ (yoe + 1) mod 400 = 0)) ->
  civil_from_days (era * 146097 + (yoe * 365 + yoe / 4 - yoe / 100 + doy) - 719468)
  = (let mp := (5 * doy + 2) / 153 in
     let m := if mp <? 10 then mp + 3 else mp - 9 in
     (if m <=? 2 then yoe + era * 400 + 1 else yoe + era * 400,
      m, doy - (153 * mp + 2) / 5 + 1)).
Proof.
  intros Hy Hd Hleap.
  destruct (yoe_recovered yoe doy Hy Hd Hleap) as [Hdoe Hyoe].
  unfold civil_from_days.
  set (doe := yoe * 365 + yoe / 4 - yoe / 100 + doy) in *.
  replace (era * 146097 + doe - 719468 + 719468) with (doe + era * 146097) by ring.
  rewrite Z.div_add, (Z.div_small doe), Z.add_0_l by lia.
  replace (doe + era * 146097 - era * 146097) with doe by ring.
  cbv zeta. rewrite Hyoe.
  replace (doe - (365 * yoe + yoe / 4 - yoe / 100)) with doy by (subst doe; ring).
  reflexivity.
Qed.

(** A date of the calendar is found again from its day number. *)
Lemma civil_round_trip y m d :
  valid_date y m d = true -> civil_from_days (days_from_civil y m d) = (y, m, d).
Proof.
  unfold valid_date. rewrite !andb_true_iff, !Z.leb_le. intros [[[Hm1 Hm2] Hd1] Hd2].
  destruct (month_day_recovered y m d ltac:(lia) ltac:(lia))
    as (Hdoy & Hfeb & Hmp & Hd & Hm).
  unfold days_from_civil. cbv zeta.
  set (y' := if m <=? 2 then y - 1 else y).
  set (mp := if 2 <? m then m - 3 else m + 9) in *.
  set (doy := (153 * mp + 2) / 5 + d - 1) in *.
  set (era := y' / 400). set (yoe := y' - era * 400).
  assert (Hyoe : 0 <= yoe < 400).
  { subst yoe era. pose proof (Z.mod_pos_bound y' 400 ltac:(lia)) as H.
    rewrite Z.mod_eq in H by lia. lia. }
  rewrite civil_from_days_spec; [|exact Hyoe|exact Hdoy|].
  - cbv zeta. rewrite Hmp, Hm, Hd. f_equal. f_equal.
    subst yoe y'. destruct (m <=? 2); lia.
  - intros H365. destruct (Hfeb H365) as [-> Hleap].
    subst yoe era y'. unfold is_leap in Hleap.
    apply andb_true_iff in Hleap as [H4 H100].
    apply Z.eqb_eq in H4. apply orb_true_iff in H100.
    rewrite negb_true_iff, Z.eqb_neq, Z.eqb_eq in H100.
    change (2 <=? 2) with true. cbv iota.
    Z.div_mod_to_equations. lia.
Qed.

Lemma midnight_calendar_date y m d :
  valid_date y m d = true ->
  calendar_date (midnight y m d) = (y, m, d) /\ time_of_day (midnight y m d) = 0.
Proof.
  intros Hv. unfold calendar_date, time_of_day, midnight. split.
  - rewrite Z.div_mul by (unfold ns_per_day; lia). by apply civil_round_trip.
  - apply Z.mod_mul. unfold ns_per_day. lia.
Qed.

Lemma iso_parse_Ok s t : iso_parse s = Ok t -> same_calendar_date s t.
Proof.
  unfold iso_parse, same_calendar_date.
  destruct (iso_date s) as [[[y m] d]|]; [|discriminate].
  destruct (valid_date y m d) eqn:Hv; [|discriminate].
  destruct (_ && _)%bool; [|discriminate]. intros [= <-].
  destruct (midnight_calendar_date y m d Hv) as [Hc Ht].
  by exists y, m, d.
Qed.

Lemma iso_parse_iso_text s :
  iso_text s -> exists t, iso_parse s = Ok t.
Proof.
  intros (y & m & d & Hs & Hv & Hlo & Hhi). unfold iso_parse.
  rewrite Hs, Hv.
  assert (((int64_min <? midnight y m d) && (midnight y m d <=? int64_max))%bool = true)
    as ->.
  { apply andb_true_iff. split; [by apply Z.ltb_lt | by apply Z.leb_le]. }
  by eexists.
Qed.

Local Open Scope string_scope.
Local Open Scope list_scope.
Local Open Scope stdpp_scope.

Lemma first_text_elem_of raw first :
  first_text raw = Some first -> Some first ∈ raw.
Proof.
  unfold first_text. induction raw as [|[s|] raw IH]; simpl; [discriminate| |].
  - intros [= ->]. left.
  - intros H. right. auto.
Qed.

Lemma first_text_None raw :
  first_text raw = None -> Forall (fun c => c = None) raw.
Proof.
  unfold first_text. induction raw as [|[s|] raw IH]; simpl; [constructor|discriminate|].
  intros H. constructor; auto.
Qed.




(** ** Metric aggregator *)

Lemma fold_sum_step s acc :
  fold_left sum_step s acc = acc + arithmetic_sum s.
Proof.
  revert acc. induction s as [|c s IH]; intros acc; simpl.
  - lia.
  - rewrite IH. destruct c; simpl; lia.
Qed.

Lemma arithmetic_sum_app s1 s2 :
  arithmetic_sum (s1 ++ s2) = arithmetic_sum s1 + arithmetic_sum s2.
Proof.
  unfold arithmetic_sum. rewrite foldr_app.
  induction s1 as [|c s1 IH]; simpl; lia.
Qed.

Lemma wrap64_small z : int64_min <= z <= int64_max -> wrap64 z = z.
Proof.
  unfold int64_min, int64_max, wrap64. intros H.
  rewrite Z.mod_small; lia.
Qed.

Lemma wrap64_range z : int64_min <= wrap64 z <= int64_max.
Proof.
  unfold int64_min, int64_max, wrap64.
  pose proof (Z.mod_pos_bound (z + 2 ^ 63) (2 ^ 64) ltac:(lia)). lia.
Qed.

Lemma wrap64_add z v : wrap64 (wrap64 z + v) = wrap64 (z + v).
Proof.
  unfold wrap64. f_equal.
  replace ((z + 2 ^ 63) mod 2 ^ 64 - 2 ^ 63 + v + 2 ^ 63)
    with ((z + 2 ^ 63) mod 2 ^ 64 + v) by lia.
  rewrite Zplus_mod_idemp_l. f_equal. lia.
Qed.

Lemma fold_int64_step s acc :
  fold_left int64_step s (wrap64 acc) = wrap64 (acc + arithmetic_sum s).
Proof.
  revert acc. induction s as [|c s IH]; intros acc; simpl.
  - f_equal. lia.
  - destruct c as [v|]; simpl.
    + rewrite wrap64_add, IH. f_equal. lia.
    + apply IH.
Qed.

Lemma series_sum_int64 s :
  has_null s = false -> series_sum s = Int64 (wrap64 (arithmetic_sum s)).
Proof.
  intros H. unfold series_sum. rewrite H. f_equal.
  exact (fold_int64_step s 0).
Qed.

Lemma series_sum_float64 s :
  has_null s = true -> series_sum s = Float64 (arithmetic_sum s).
Proof.
  intros H. unfold series_sum. rewrite H, fold_sum_step. f_equal.
Qed.

Lemma dict_get_lookup {V} (d : list (string * V)) i k v :
  NoDup (map fst d) -> d !! i = Some (k, v) -> dict_get d k = Some v.
Proof.
  revert i. induction d as [|[k' v'] d IH]; intros i Hnd Hi; [done|].
  apply NoDup_cons in Hnd as [Hk' Hnd]. simpl.
  destruct i as [|i]; simpl in Hi.
  - injection Hi as -> ->. by rewrite String.eqb_refl.
  - destruct (String.eqb_spec k' k) as [->|_]; [|by eapply IH].
    exfalso. apply Hk'. apply list_elem_of_fmap. exists (k, v).
    split; [done|]. by eapply list_elem_of_lookup_2.
Qed.

Lemma dict_get_absent {V} (d : list (string * V)) k :
  k ∉ map fst d -> dict_get d k = None.
Proof.
  intros H. destruct (dict_get d k) eqn:E; [|done].
  exfalso. apply H. apply dict_get_elem_of in E.
  apply list_elem_of_fmap. by eexists (_, _).
Qed.

Lemma column_total_lookup (df : Table) i name s :
  NoDup (labels df) ->
  columns df !! i = Some (name, s) ->
  column_total df name = Ok (series_sum s).
Proof.
  intros Hnd Hi. unfold column_total, column.
  by rewrite (dict_get_lookup _ _ _ _ Hnd Hi).
Qed.

Lemma well_formed_column df name s :
  well_formed df -> dict_get (columns df) name = Some s -> length s = nrows df.
Proof.
  intros [Hlen _] Hget. apply dict_get_elem_of in Hget.
  rewrite Forall_forall in Hlen. exact (Hlen _ Hget).
Qed.




(** ** Long-form reshaper: the real records *)

Lemma category_rows_eq df kind cat p vals :
  dict_get category_mapping cat = Some p ->
  dict_get (columns df) (p ++ metric_suffix kind)%string = Some vals ->
  category_rows df kind cat = melt_column (stamps (date_ df)) cat vals.
Proof. intros Hp Hvals. unfold category_rows. by rewrite Hp, Hvals. Qed.

Lemma traverse_app {A B} (f : A -> result B) l1 l2 :
  traverse f (l1 ++ l2)
  = do b1 <- traverse f l1; do b2 <- traverse f l2; Ok (b1 ++ b2).
Proof.
  induction l1 as [|a l1 IH]; simpl.
  - by destruct (traverse f l2).
  - destruct (f a); simpl; [|reflexivity]. rewrite IH.
    destruct (traverse f l1); simpl; [|reflexivity].
    by destruct (traverse f l2).
Qed.

Lemma relabel_melt_column ds kind cat p vals :
  dict_get category_mapping cat = Some p ->
  relabel (melt_column ds (p ++ metric_suffix kind) vals)
  = Ok (melt_column ds cat vals).
Proof.
  intros Hp. unfold relabel, melt_column.
  revert vals. induction ds as [|d ds IH]; intros [|v vals]; simpl; try reflexivity.
  rewrite (intent_label_derived kind cat p Hp). simpl. by rewrite IH.
Qed.

Lemma missing_labels_spec (df : Table) vars k :
  k ∈ missing_labels df vars <-> k ∈ vars /\ k ∉ labels df.
Proof.
  unfold missing_labels. rewrite !list_elem_of_In, List.filter_In, <- !list_elem_of_In.
  split; intros [Hk H]; (split; [exact Hk|]).
  - destruct (dict_get (columns df) k) eqn:E; [discriminate|].
    by apply dict_get_None.
  - by rewrite (dict_get_absent _ _ H).
Qed.

Lemma stack_columns_Ok_missing (df : Table) vars melted :
  stack_columns df vars = Ok melted -> missing_labels df vars = [].
Proof.
  unfold stack_columns, missing_labels.
  revert melted. induction vars as [|var vars IH]; intros melted; simpl; [done|].
  unfold column at 1.
  destruct (dict_get (columns df) var); simpl; [|discriminate].
  destruct (traverse _ vars) as [blocks|]; simpl in *; [|discriminate].
  intros _. by apply (IH (mjoin blocks)).
Qed.

Lemma stack_columns_present (df : Table) vars :
  missing_labels df vars = [] -> exists melted, stack_columns df vars = Ok melted.
Proof.
  unfold stack_columns, missing_labels.
  induction vars as [|var vars IH]; simpl; [by eexists|].
  unfold column at 1.
  destruct (dict_get (columns df) var); simpl; [|discriminate].
  intros [melted Hm]%IH.
  destruct (traverse _ vars) as [blocks|]; simpl in *; [|discriminate].
  by eexists.
Qed.

Lemma melt_Ok (df : Table) vars melted :
  melt df vars = Ok melted <-> stack_columns df vars = Ok melted.
Proof.
  unfold melt. split.
  - by destruct (missing_labels df vars).
  - intros H. by rewrite (stack_columns_Ok_missing _ _ _ H).
Qed.

Lemma melt_Raise (df : Table) vars e :
  melt df vars = Raise e ->
  e = MissingColumns (missing_labels df vars) /\ missing_labels df vars <> [].
Proof.
  unfold melt. destruct (missing_labels df vars) as [|k ks] eqn:E.
  - destruct (stack_columns_present _ _ E) as [melted ->]. discriminate.
  - intros [= <-]. by split.
Qed.

Section RealRecords.

Variable df : Table.
Variable kind : metric_kind.

Lemma pipeline_stack_columns sel :
  Forall (fun cat => is_Some (dict_get category_mapping cat)) sel ->
  columns_exist df kind sel ->
  exists vars melted,
    traverse (intent_column kind) sel = Ok vars
    /\ stack_columns df vars = Ok melted
    /\ relabel melted = Ok (real_records df kind sel).
Proof.
  unfold columns_exist, stack_columns, real_records.
  induction sel as [|cat sel IH]; intros Hsel Hcols.
  - exists [], []. by repeat split.
  - apply Forall_cons in Hsel as [[p Hp] Hsel].
    apply Forall_cons in Hcols as [Hc Hcols].
    destruct (Hc p Hp) as [vals Hvals].
    destruct (IH Hsel Hcols) as (vars & melted & Hv & Hm & Hr).
    destruct (traverse _ vars) as [blocks|] eqn:Hb; simpl in Hm; [|discriminate].
    injection Hm as <-.
    exists ((p ++ metric_suffix kind)%string :: vars),
      (melt_column (stamps (date_ df)) (p ++ metric_suffix kind) vals ++ mjoin blocks).
    split; [|split].
    + simpl. unfold intent_column at 1, prefix_of. rewrite Hp. simpl.
      by rewrite Hv.
    + simpl. unfold column at 1. rewrite Hvals. simpl. by rewrite Hb.
    + unfold relabel in *. rewrite traverse_app.
      fold (relabel (melt_column (stamps (date_ df)) (p ++ metric_suffix kind) vals)).
      rewrite (relabel_melt_column _ kind cat p vals Hp). cbn [bind].
      rewrite Hr. cbn [bind map mjoin list_join].
      by rewrite (category_rows_eq _ _ _ _ _ Hp Hvals).
Qed.

Lemma pipeline_real_records sel :
  Forall (fun cat => is_Some (dict_get category_mapping cat)) sel ->
  columns_exist df kind sel ->
  exists vars melted,
    traverse (intent_column kind) sel = Ok vars
    /\ melt df vars = Ok melted
    /\ relabel melted = Ok (real_records df kind sel).
Proof.
  intros Hsel Hcols.
  destruct (pipeline_stack_columns sel Hsel Hcols) as (vars & melted & Hv & Hm & Hr).
  exists vars, melted. split; [exact Hv|]. split; [|exact Hr].
  by apply melt_Ok.
Qed.

Lemma length_category_rows cat :
  well_formed df ->
  is_Some (dict_get category_mapping cat) ->
  (forall p, dict_get category_mapping cat = Some p ->
     is_Some (dict_get (columns df) (p ++ metric_suffix kind)%string)) ->
  length (category_rows df kind cat) = nrows df.
Proof.
  intros Hwf [p Hp] Hc. destruct (Hc p Hp) as [vals Hvals].
  rewrite (category_rows_eq _ _ _ _ _ Hp Hvals). unfold melt_column.
  rewrite length_zip_with.
  pose proof (well_formed_column _ _ _ Hwf Hvals). unfold nrows in *. lia.
Qed.

Lemma category_rows_same_length sel :
  well_formed df ->
  Forall (fun cat => is_Some (dict_get category_mapping cat)) sel ->
  columns_exist df kind sel ->
  Forall (fun l : list LongRecord => length l = nrows df)
         (map (category_rows df kind) sel).
Proof.
  intros Hwf Hsel Hcols. apply Forall_fmap, Forall_forall.
  intros cat Hin. rewrite Forall_forall in Hsel. unfold columns_exist in Hcols.
  rewrite Forall_forall in Hcols. simpl.
  apply length_category_rows; [exact Hwf | exact (Hsel _ Hin) | exact (Hcols _ Hin)].
Qed.

Lemma length_real_records sel :
  well_formed df ->
  Forall (fun cat => is_Some (dict_get category_mapping cat)) sel ->
  columns_exist df kind sel ->
  length (real_records df kind sel) = (length sel * nrows df)%nat.
Proof.
  intros Hwf Hsel Hcols. unfold real_records. rewrite length_join.
  rewrite (sum_list_fmap_same (nrows df)).
  - by rewrite length_map.
  - by apply category_rows_same_length.
Qed.

(** Where a record of the real part comes from. *)
Lemma elem_of_real_records sel r :
  r ∈ real_records df kind sel ->
  exists cat p vals i c,
    cat ∈ sel
    /\ dict_get category_mapping cat = Some p
    /\ dict_get (columns df) (p ++ metric_suffix kind)%string = Some vals
    /\ stamps (date_ df) !! i = Some (m_date r)
    /\ vals !! i = Some c
    /\ Intent r = cat
    /\ Value r = inject_Z <$> c.
Proof.
  unfold real_records. intros Hin.
  apply list_elem_of_join in Hin as (rows & Hr & Hrows).
  apply list_elem_of_fmap in Hrows as (cat & -> & Hcat).
  unfold category_rows in Hr.
  destruct (dict_get category_mapping cat) as [p|] eqn:Hp;
    [|by apply elem_of_nil in Hr].
  destruct (dict_get (columns df) _) as [vals|] eqn:Hvals;
    [|by apply elem_of_nil in Hr].
  apply list_elem_of_lookup in Hr as [i Hi]. unfold melt_column in Hi.
  apply lookup_zip_with_Some in Hi as (d & c & -> & Hd & Hc).
  exists cat, p, vals, i, c. by repeat split.
Qed.

End RealRecords.

(** ** Minimum and maximum of a series *)

Lemma fold_min_step s acc :
  match fold_left min_step s acc with
  | None => acc = None /\ Forall (fun c => c = None) s
  | Some z =>
      (acc = Some z \/ Some z ∈ s)
      /\ (forall a, acc = Some a -> z <= a)
      /\ (forall z', Some z' ∈ s -> z <= z')
  end.
Proof.
  revert acc. induction s as [|c s IH]; intros acc; simpl.
  - destruct acc as [a|].
    + split; [by left|]. split; [intros ? [= <-]; lia|].
      intros z' Hin. by apply elem_of_nil in Hin.
    + by split.
  - specialize (IH (min_step acc c)).
    destruct (fold_left min_step s (min_step acc c)) as [z|].
    + destruct IH as (Hin & Hacc & Hs). split; [|split].
      * destruct Hin as [Hin|Hin]; [|right; by right].
        destruct acc as [a|], c as [v|]; simpl in Hin;
          try (injection Hin as <-); try discriminate.
        -- destruct (Z.min_spec a v) as [[_ ->]|[_ ->]];
             [by left | right; left].
        -- by left.
        -- right; left.
      * intros a ->. destruct c as [v|]; simpl in Hacc.
        -- specialize (Hacc _ eq_refl). lia.
        -- by apply Hacc.
      * intros z' Hz'. apply elem_of_cons in Hz' as [<-|Hz']; [|by apply Hs].
        destruct acc as [a|]; simpl in Hacc.
        -- specialize (Hacc _ eq_refl). lia.
        -- by apply Hacc.
    + destruct IH as (Hacc & Hs).
      destruct acc as [a|], c as [v|]; try discriminate.
      split; [reflexivity|]. by constructor.
  Qed.

Lemma series_min_spec s : is_series_min s (series_min s).
Proof.
  unfold series_min, is_series_min. pose proof (fold_min_step s None) as H.
  destruct (fold_left min_step s None) as [z|].
  - destruct H as ([?|Hin] & _ & Hs); [discriminate|]. by split.
  - tauto.
Qed.

Lemma Qle_bool_false a v : Qle_bool a v = false -> Qle v a.
Proof.
  intros H. apply Qlt_le_weak, Qnot_le_lt. intros Hle.
  apply Qle_bool_iff in Hle. congruence.
Qed.

Lemma fold_max_step s acc :
  match fold_left max_step s acc with
  | None => acc = None /\ Forall (fun c => c = None) s
  | Some m =>
      (acc = Some m \/ Some m ∈ s)
      /\ (forall a, acc = Some a -> Qle a m)
      /\ (forall v, Some v ∈ s -> Qle v m)
  end.
Proof.
  revert acc. induction s as [|c s IH]; intros acc; simpl.
  - destruct acc as [a|].
    + split; [by left|]. split; [intros ? [= <-]; apply Qle_refl|].
      intros v Hin. by apply elem_of_nil in Hin.
    + by split.
  - specialize (IH (max_step acc c)).
    destruct (fold_left max_step s (max_step acc c)) as [m|].
    + destruct IH as (Hin & Hacc & Hs). split; [|split].
      * destruct Hin as [Hin|Hin]; [|right; by right].
        destruct acc as [a|], c as [v|]; simpl in Hin;
          try (injection Hin as <-); try discriminate.
        -- destruct (Qle_bool a v); [right; left | by left].
        -- by left.
        -- right; left.
      * intros a ->. destruct c as [v|]; simpl in Hacc.
        -- specialize (Hacc _ eq_refl).
           destruct (Qle_bool a v) eqn:E; [|exact Hacc].
           apply Qle_bool_iff in E. eapply Qle_trans; eauto.
        -- by apply Hacc.
      * intros v Hv. apply elem_of_cons in Hv as [<-|Hv]; [|by apply Hs].
        destruct acc as [a|]; simpl in Hacc.
        -- specialize (Hacc _ eq_refl).
           destruct (Qle_bool a v) eqn:E; [exact Hacc|].
           apply Qle_bool_false in E. eapply Qle_trans; eauto.
        -- by apply Hacc.
    + destruct IH as (Hacc & Hs).
      destruct acc as [a|], c as [v|]; try discriminate.
      split; [reflexivity|]. by constructor.
Qed.

Lemma series_max_padded (vals : list (option Q)) :
  exists m, series_max (vals ++ [Some 0%Q]) = Some m /\ is_padded_max vals m.
Proof.
  unfold series_max, is_padded_max.
  pose proof (fold_max_step (vals ++ [Some 0%Q]) None) as H.
  destruct (fold_left max_step (vals ++ [Some 0%Q]) None) as [m|].
  - exists m. split; [reflexivity|].
    destruct H as ([?|Hin] & _ & Hs); [discriminate|]. split; [|split].
    + apply elem_of_app in Hin as [Hin|Hin]; [by left|].
      apply list_elem_of_singleton in Hin. injection Hin as ->. by right.
    + apply Hs. apply elem_of_app. right. apply list_elem_of_singleton. reflexivity.
    + intros v Hv. apply Hs. apply elem_of_app. by left.
  - destruct H as [_ H]. rewrite Forall_app, Forall_singleton in H.
    destruct H as [_ H]. discriminate H.
Qed.

(** ** Long-form reshaper: padding *)

Lemma pad_nonempty melted first :
  iloc0 (map Intent melted) = Ok first ->
  exists m,
    series_max (map Value melted ++ [Some 0%Q]) = Some m
    /\ is_padded_max (map Value melted) m
    /\ pad melted
       = Ok (melted ++
             [ mkRecord (series_min (map m_date melted)) first (Some 0%Q);
               mkRecord (series_min (map m_date melted)) first
                        (Some (Qmult m headroom)) ]).
Proof.
  intros Hfirst.
  destruct (series_max_padded (map Value melted)) as (m & Hm & Hmax).
  exists m. split; [exact Hm|]. split; [exact Hmax|].
  destruct melted as [|r rs]; [discriminate|].
  injection Hfirst as <-. unfold pad, zero_row, top_buffer, concat_row.
  cbn [iloc0 map bind].
  rewrite !map_app. cbn [map app iloc0 bind Value] in Hm |- *.
  rewrite Hm. cbn [fmap option_fmap option_map].
  rewrite <- app_assoc. reflexivity.
Qed.

Lemma pad_cases melted out :
  pad melted = Ok out ->
  (melted = [] /\ out = [])
  \/ (melted <> [] /\ exists zero top, out = melted ++ [zero; top]).
Proof.
  destruct melted as [|r rs].
  - intros [= <-]. by left.
  - destruct (pad_nonempty (r :: rs) (Intent r) eq_refl) as (m & _ & _ & ->).
    intros [= <-]. right. split; [discriminate|]. by eexists _, _.
Qed.

Lemma reshape_selected df sel kind :
  selection sel -> columns_exist df kind sel -> sel <> [] ->
  reshape df sel kind = pad (real_records df kind sel).
Proof.
  intros [_ Hsel] Hcols Hne.
  destruct (pipeline_real_records df kind sel Hsel Hcols)
    as (vars & melted & Hv & Hm & Hr).
  unfold reshape, chart_section. rewrite Hv. cbn [bind].
  destruct sel as [|cat sel]; [congruence|].
  rewrite Hm. cbn [bind]. rewrite Hr. cbn [bind].
  by destruct (pad (real_records df kind (cat :: sel))).
Qed.

Lemma melt_no_rows df vars melted :
  nrows df = 0%nat -> melt df vars = Ok melted -> melted = [].
Proof.
  intros Hn Hm%melt_Ok. revert Hn Hm.
  unfold nrows, stack_columns. intros Hn%nil_length_inv. rewrite Hn.
  revert melted. induction vars as [|var vars IH]; intros melted; simpl.
  - by intros [= <-].
  - destruct (column df var); simpl; [|discriminate].
    destruct (traverse _ vars) as [blocks|]; simpl in *; [|discriminate].
    intros [= <-]. by apply (IH (mjoin blocks)).
Qed.

Lemma real_records_cons df kind cat sel :
  real_records df kind (cat :: sel)
  = category_rows df kind cat ++ real_records df kind sel.
Proof. reflexivity. Qed.

Lemma real_records_no_rows df kind sel :
  nrows df = 0%nat -> real_records df kind sel = [].
Proof.
  unfold nrows. intros Hn%nil_length_inv.
  induction sel as [|cat sel IH]; [reflexivity|].
  rewrite real_records_cons, IH, app_nil_r.
  unfold category_rows. rewrite Hn.
  destruct (dict_get category_mapping cat); [|reflexivity].
  by destruct (dict_get (columns df) _).
Qed.

(** C7. [reshape] returns the empty sequence, without padding records, in
    the two degenerate cases: for an empty selection, whatever the table
    (the section then shows the notice instead of a chart), and for a table
    without rows, whatever the selection.  Padding is applied to a
    non-empty melted frame only: [pad] leaves the empty frame empty and
    adds exactly two records to any other. *)
Theorem reshape_degenerate_is_empty (df : Table) (kind : metric_kind) :
  (chart_section kind df [] = Ok (info "Please select at least one category.")
   /\ reshape df [] kind = Ok [])
  /\ (forall sel, selection sel -> columns_exist df kind sel ->
        nrows df = 0%nat -> reshape df sel kind = Ok [])
  /\ (forall sel out, nrows df = 0%nat -> reshape df sel kind = Ok out -> out = [])
  /\ (forall melted out, pad melted = Ok out ->
        (melted = [] /\ out = [])
        \/ (melted <> [] /\ exists zero top, out = melted ++ [zero; top])).
Proof.
  split; [by split|]. split; [|split].
  - intros sel Hsel Hcols Hn.
    destruct sel as [|cat sel]; [reflexivity|].
    rewrite reshape_selected by (done || discriminate).
    by rewrite real_records_no_rows.
  - intros sel out Hn. unfold reshape, chart_section.
    destruct (traverse (intent_column kind) sel) as [vars|]; cbn [bind]; [|discriminate].
    destruct sel as [|cat sel]; [by intros [= <-]|].
    destruct (melt df vars) as [melted|] eqn:Hm; cbn [bind]; [|discriminate].
    apply (melt_no_rows _ _ _ Hn) in Hm as ->.
    by intros [= <-].
  - apply pad_cases.
Qed.

Lemma reshape_degenerate_is_empty_witness :
  reshape no_rows_df ["Profile"; "Soundbox Hardware"] sessions = Ok [].
Proof.
  apply (proj1 (proj2 (reshape_degenerate_is_empty no_rows_df sessions))).
  - split.
    + apply (bool_decide_unpack _). vm_compute. exact I.
    + repeat constructor; by eexists.
  - repeat constructor; intros p [= <-]; by eexists.
  - reflexivity.
Defined.

(** ** Long-form reshaper: order of the real records *)

Lemma pad_keeps_prefix melted :
  exists tail, pad melted = Ok (melted ++ tail).
Proof.
  destruct melted as [|r rs].
  - by exists [].
  - destruct (pad_nonempty (r :: rs) (Intent r) eq_refl) as (m & _ & _ & ->).
    by eexists.
Qed.

Lemma real_records_lookup df kind sel c r cat d :
  well_formed df -> selection sel -> columns_exist df kind sel ->
  sel !! c = Some cat ->
  stamps (date_ df) !! r = Some d ->
  exists p vals v,
    dict_get category_mapping cat = Some p
    /\ dict_get (columns df) (p ++ metric_suffix kind)%string = Some vals
    /\ vals !! r = Some v
    /\ real_records df kind sel !! (c * nrows df + r)%nat
       = Some (mkRecord d cat (inject_Z <$> v)).
Proof.
  intros Hwf [_ Hsel] Hcols Hc Hd.
  pose proof (category_rows_same_length df kind sel Hwf Hsel Hcols) as Hlen.
  assert (Hin : cat ∈ sel) by (by eapply list_elem_of_lookup_2).
  unfold columns_exist in Hcols.
  rewrite Forall_forall in Hsel. rewrite Forall_forall in Hcols.
  destruct (Hsel _ Hin) as [p Hp]. destruct (Hcols _ Hin p Hp) as [vals Hvals].
  assert (Hr : (r < nrows df)%nat) by (by eapply lookup_lt_Some).
  destruct (lookup_lt_is_Some_2 vals r) as [v Hv].
  { by rewrite (well_formed_column _ _ _ Hwf Hvals). }
  exists p, vals, v. repeat split; try done.
  unfold real_records.
  apply (join_lookup_Some_same_length' (nrows df)); [exact Hlen | exact Hr |].
  exists (category_rows df kind cat). split.
  - by rewrite list_lookup_fmap, Hc.
  - rewrite (category_rows_eq _ _ _ _ _ Hp Hvals). unfold melt_column.
    by rewrite lookup_zip_with, Hd, Hv.
Qed.

(** C1, as the code has it. For a non-empty selection whose columns exist,
    [reshape] emits its real records category by category: the selected
    categories are taken in the order they were supplied and, within a
    category, the rows in table order, so that the record of row [r] and of
    the [c]-th selected category, [(row.date, category.label,
    row[prefix + "_" + kind])], is at position
    [c * number of rows + r]. *)
Theorem reshape_emits_category_major (df : Table) sel kind :
  well_formed df -> selection sel -> columns_exist df kind sel -> sel <> [] ->
  exists out,
    reshape df sel kind = Ok out
    /\ forall c r cat d,
         sel !! c = Some cat ->
         stamps (date_ df) !! r = Some d ->
         exists p vals v,
           dict_get category_mapping cat = Some p
           /\ dict_get (columns df) (p ++ metric_suffix kind)%string = Some vals
           /\ vals !! r = Some v
           /\ out !! (c * nrows df + r)%nat
              = Some (mkRecord d cat (inject_Z <$> v)).
Proof.
  intros Hwf Hsel Hcols Hne.
  rewrite (reshape_selected df sel kind Hsel Hcols Hne).
  destruct (pad_keeps_prefix (real_records df kind sel)) as [tail ->].
  eexists. split; [reflexivity|].
  intros c r cat d Hc Hd.
  destruct (real_records_lookup df kind sel c r cat d Hwf Hsel Hcols Hc Hd)
    as (p & vals & v & Hp & Hvals & Hv & Hrec).
  exists p, vals, v. repeat split; try done.
  by apply lookup_app_l_Some.
Qed.

Lemma two_by_two_well_formed : well_formed two_by_two_df.
Proof.
  split.
  - repeat constructor.
  - apply (bool_decide_unpack _). vm_compute. exact I.
Qed.

Lemma two_categories_selection : selection two_categories.
Proof.
  split.
  - apply (bool_decide_unpack _). vm_compute. exact I.
  - repeat constructor; by eexists.
Qed.

Lemma two_by_two_columns_exist : columns_exist two_by_two_df sessions two_categories.
Proof. repeat constructor; intros p [= <-]; by eexists. Qed.

Lemma reshape_emits_category_major_witness :
  exists out,
    reshape two_by_two_df two_categories sessions = Ok out
    /\ out !! (1%nat) = Some (mkRecord (Some 20240102) "Soundbox Hardware" (Some 20%Q))
    /\ out !! (2%nat) = Some (mkRecord (Some 20240101) "Profile" (Some 1%Q)).
Proof.
  destruct (reshape_emits_category_major two_by_two_df two_categories sessions
              two_by_two_well_formed two_categories_selection
              two_by_two_columns_exist ltac:(discriminate))
    as (out & Hout & Hpos).
  exists out. split; [exact Hout|]. split.
  - destruct (Hpos 0%nat 1%nat "Soundbox Hardware" (Some 20240102) eq_refl eq_refl)
      as (p & vals & v & Hp & Hvals & Hv & Hrec).
    injection Hp as <-. injection Hvals as <-. injection Hv as <-. exact Hrec.
  - destruct (Hpos 1%nat 0%nat "Profile" (Some 20240101) eq_refl eq_refl)
      as (p & vals & v & Hp & Hvals & Hv & Hrec).
    injection Hp as <-. injection Hvals as <-. injection Hv as <-. exact Hrec.
Defined.

(** Two rows and two categories: position 1 holds the second row of the
    first category, not the first row of the second category. *)
Lemma reshape_is_not_row_major : ~ emits_row_major.
Proof.
  intros H.
  specialize (H two_by_two_df two_categories sessions _
                two_by_two_well_formed two_categories_selection
                two_by_two_columns_exist ltac:(discriminate) eq_refl
                0%nat 1%nat "Profile" "profile" [Some 1; Some 2] (Some 20240101) (Some 1)
                eq_refl eq_refl eq_refl eq_refl eq_refl).
  vm_compute in H. discriminate H.
Qed.

(** ** Long-form reshaper: the two synthetic records *)

Lemma real_records_first df kind sel :
  well_formed df -> selection sel -> columns_exist df kind sel ->
  sel <> [] -> (0 < nrows df)%nat ->
  exists first cat,
    sel !! (0%nat) = Some cat
    /\ real_records df kind sel !! (0%nat) = Some first
    /\ Intent first = cat.
Proof.
  intros Hwf Hsel Hcols Hne Hn.
  destruct sel as [|cat sel]; [congruence|].
  destruct (lookup_lt_is_Some_2 (stamps (date_ df)) 0%nat Hn) as [d Hd].
  destruct (real_records_lookup df kind (cat :: sel) 0%nat 0%nat cat d
              Hwf Hsel Hcols eq_refl Hd) as (p & vals & v & _ & _ & _ & Hrec).
  by eexists _, cat.
Qed.

(** The shape of a chart's data when there is something to chart. *)
Lemma reshape_padded df sel kind :
  well_formed df -> selection sel -> columns_exist df kind sel ->
  sel <> [] -> (0 < nrows df)%nat ->
  exists first m,
    real_records df kind sel !! (0%nat) = Some first
    /\ sel !! (0%nat) = Some (Intent first)
    /\ series_max (map Value (real_records df kind sel) ++ [Some 0%Q]) = Some m
    /\ is_padded_max (map Value (real_records df kind sel)) m
    /\ reshape df sel kind
       = Ok (real_records df kind sel ++
             [ mkRecord (series_min (map m_date (real_records df kind sel)))
                        (Intent first) (Some 0%Q);
               mkRecord (series_min (map m_date (real_records df kind sel)))
                        (Intent first) (Some (Qmult m headroom)) ]).
Proof.
  intros Hwf Hsel Hcols Hne Hn.
  destruct (real_records_first df kind sel Hwf Hsel Hcols Hne Hn)
    as (first & cat & Hcat & Hfirst & <-).
  destruct (pad_nonempty (real_records df kind sel) (Intent first))
    as (m & Hm & Hmax & Hpad).
  { destruct (real_records df kind sel); [discriminate|].
    by injection Hfirst as ->. }
  exists first, m. split; [exact Hfirst|]. split; [exact Hcat|].
  split; [exact Hm|]. split; [exact Hmax|].
  by rewrite (reshape_selected df sel kind Hsel Hcols Hne).
Qed.

(** A value of the real part is an integer cell of the table. *)
Lemma real_value_is_cell df kind sel v :
  Some v ∈ map Value (real_records df kind sel) ->
  exists name vals z,
    (name, vals) ∈ columns df /\ Some z ∈ vals /\ v = inject_Z z.
Proof.
  intros Hin. apply list_elem_of_fmap in Hin as (r & Hv & Hr).
  apply elem_of_real_records in Hr
    as (cat & p & vals & i & c & _ & _ & Hvals & _ & Hc & _ & Hval).
  rewrite Hval in Hv. destruct c as [z|]; [|discriminate].
  injection Hv as ->.
  exists (p ++ metric_suffix kind)%string, vals, z.
  split; [by apply dict_get_elem_of|]. split; [|reflexivity].
  by eapply list_elem_of_lookup_2.
Qed.

Lemma padded_max_of_nonneg df kind sel m :
  is_padded_max (map Value (real_records df kind sel)) m ->
  (exists v, Some v ∈ map Value (real_records df kind sel) /\ Qle 0 v) ->
  Some m ∈ map Value (real_records df kind sel).
Proof.
  intros ([Hin| ->] & Hm & Hmax) (v & Hv & Hpos); [exact Hin|].
  destruct (real_value_is_cell _ _ _ _ Hv) as (_ & _ & z & _ & _ & ->).
  specialize (Hmax _ Hv). unfold Qle in *. simpl in *.
  assert (z = 0) as -> by lia. exact Hv.
Qed.

(** C2, as the code has it. When there is something to chart, the value of
    the second synthetic record is 1.05 times the maximum of the frame
    that already holds the zero baseline record: the greatest of the real
    values and 0.  It is 1.05 times the maximum real value whenever some
    real value is non-negative, and 0 when every real value is negative. *)
Theorem headroom_uses_padded_max (df : Table) sel kind :
  well_formed df -> selection sel -> columns_exist df kind sel ->
  sel <> [] -> (0 < nrows df)%nat ->
  exists real zero top m,
    reshape df sel kind = Ok (real ++ [zero; top])
    /\ real = real_records df kind sel
    /\ Value zero = Some 0%Q
    /\ series_max (map Value (real ++ [zero])) = Some m
    /\ Value top = Some (Qmult m headroom)
    /\ ((exists v, Some v ∈ map Value real /\ Qle 0 v) ->
        exists m', series_max (map Value real) = Some m' /\ Qeq m m')
    /\ ((forall v, Some v ∈ map Value real -> Qlt v 0) -> m = 0%Q).
Proof.
  intros Hwf Hsel Hcols Hne Hn.
  destruct (reshape_padded df sel kind Hwf Hsel Hcols Hne Hn)
    as (first & m & _ & _ & Hm & Hmax & Hout).
  eexists _, _, _, m. split; [exact Hout|].
  split; [reflexivity|]. split; [reflexivity|].
  split; [by rewrite map_app|]. split; [reflexivity|]. split.
  - intros Hpos.
    pose proof (padded_max_of_nonneg _ _ _ _ Hmax Hpos) as Hin.
    destruct Hmax as (_ & _ & Hle).
    pose proof (fold_max_step (map Value (real_records df kind sel)) None) as H.
    fold (series_max (map Value (real_records df kind sel))) in H.
    destruct (series_max (map Value (real_records df kind sel))) as [m'|].
    + exists m'. split; [reflexivity|].
      destruct H as ([?|Hin'] & _ & Hle'); [discriminate|].
      apply Qle_antisym; auto.
    + destruct H as [_ H]. rewrite Forall_forall in H.
      specialize (H _ Hin). discriminate H.
  - intros Hneg. destruct Hmax as ([Hin| ->] & Hm0 & _); [|reflexivity].
    specialize (Hneg _ Hin). exfalso. apply (Qlt_not_le _ _ Hneg Hm0).
Qed.

Lemma headroom_uses_padded_max_witness :
  exists real zero top,
    reshape two_by_two_df two_categories sessions = Ok (real ++ [zero; top])
    /\ length real = 4%nat
    /\ Value top = Some (Qmult 20 headroom).
Proof.
  destruct (headroom_uses_padded_max two_by_two_df two_categories sessions
              two_by_two_well_formed two_categories_selection
              two_by_two_columns_exist ltac:(discriminate) ltac:(unfold nrows; simpl; lia))
    as (real & zero & top & m & Hout & -> & Hzero & Hm & Htop & _).
  eexists _, zero, top. split; [exact Hout|]. split; [reflexivity|].
  rewrite Htop. revert Hm. rewrite map_app. cbn [map]. rewrite Hzero.
  vm_compute. by intros [= <-].
Defined.

Lemma negative_df_well_formed : well_formed negative_df.
Proof.
  split.
  - repeat constructor.
  - apply (bool_decide_unpack _). vm_compute. exact I.
Qed.

Lemma soundbox_selection : selection ["Soundbox Hardware"].
Proof.
  split.
  - apply (bool_decide_unpack _). vm_compute. exact I.
  - repeat constructor; by eexists.
Qed.

(** With the values -10 and -20 the maximum of the real records is -10,
    yet the second synthetic record carries 0 * 1.05: the zero baseline
    record took part in the maximum. *)
Lemma headroom_counts_zero_row : ~ headroom_from_real_max.
Proof.
  intros H.
  destruct (H negative_df ["Soundbox Hardware"] sessions _
              (mkRecord (Some 20240101) "Soundbox Hardware" (Some 0%Q))
              (mkRecord (Some 20240101) "Soundbox Hardware" (Some (Qmult 0 headroom)))
              negative_df_well_formed soundbox_selection
              ltac:(repeat constructor; intros p [= <-]; by eexists)
              ltac:(discriminate) eq_refl eq_refl)
    as (m & v & Hm & Hv & Heq).
  vm_compute in Hm. injection Hm as <-.
  cbn [Value] in Hv. injection Hv as <-.
  vm_compute in Heq. discriminate Heq.
Qed.

(** C3, as the code has it. For a table of [N >= 1] rows and a non-empty
    selection of [k] categories whose columns exist, [reshape] returns
    [k * N + 2] records: the [k * N] real records, then two synthetic
    records, appended once for the whole frame.  Both carry the least date
    of the real records and the label of the first real record; the first
    has value 0 and the second 1.05 times the greatest of the real values
    and 0, which is the maximum real value as soon as one real value is
    non-negative. *)
Theorem reshape_appends_padding_once (df : Table) sel kind :
  well_formed df -> selection sel -> columns_exist df kind sel ->
  sel <> [] -> (0 < nrows df)%nat ->
  exists real first zero top m,
    reshape df sel kind = Ok (real ++ [zero; top])
    /\ real = real_records df kind sel
    /\ length real = (length sel * nrows df)%nat
    /\ length (real ++ [zero; top]) = (length sel * nrows df + 2)%nat
    /\ real !! (0%nat) = Some first
    /\ is_series_min (map m_date real) (m_date zero)
    /\ m_date top = m_date zero
    /\ Intent zero = Intent first
    /\ Intent top = Intent first
    /\ Value zero = Some 0%Q
    /\ Value top = Some (Qmult m headroom)
    /\ is_padded_max (map Value real) m
    /\ ((exists v, Some v ∈ map Value real /\ Qle 0 v) -> Some m ∈ map Value real).
Proof.
  intros Hwf Hsel Hcols Hne Hn.
  destruct (reshape_padded df sel kind Hwf Hsel Hcols Hne Hn)
    as (first & m & Hfirst & _ & _ & Hmax & Hout).
  pose proof (length_real_records df kind sel Hwf (proj2 Hsel) Hcols) as Hlen.
  eexists _, first, _, _, m. split; [exact Hout|].
  split; [reflexivity|]. split; [exact Hlen|].
  split; [rewrite length_app, Hlen; simpl; lia|].
  split; [exact Hfirst|].
  split; [apply series_min_spec|].
  do 5 (split; [reflexivity|]).
  split; [exact Hmax|].
  by apply padded_max_of_nonneg.
Qed.

Lemma reshape_appends_padding_once_witness :
  exists real zero top,
    reshape two_by_two_df two_categories sessions = Ok (real ++ [zero; top])
    /\ length real = 4%nat
    /\ m_date zero = Some 20240101
    /\ Intent top = "Soundbox Hardware".
Proof.
  destruct (reshape_appends_padding_once two_by_two_df two_categories sessions
              two_by_two_well_formed two_categories_selection
              two_by_two_columns_exist ltac:(discriminate)
              ltac:(unfold nrows; simpl; lia))
    as (real & first & zero & top & m & Hout & -> & Hlen & _ & Hfirst & Hmin
        & _ & _ & Htop & _).
  exists (real_records two_by_two_df sessions two_categories), zero, top.
  split; [exact Hout|]. split; [exact Hlen|]. split.
  - unfold is_series_min in Hmin. destruct (m_date zero) as [z|].
    + destruct Hmin as [Hin Hle]. f_equal.
      pose proof (Hle 20240101 ltac:(apply (bool_decide_unpack _); vm_compute; exact I)).
      assert (Hz : 20240101 <= z).
      { change (map m_date (real_records two_by_two_df sessions two_categories))
          with [Some 20240101; Some 20240102; Some 20240101; Some 20240102] in Hin.
        repeat (apply elem_of_cons in Hin as [[= ->]|Hin]; [lia|]).
        by apply elem_of_nil in Hin. }
      lia.
    + apply Forall_cons in Hmin as [Hd _]. discriminate Hd.
  - rewrite Htop. injection Hfirst as <-. reflexivity.
Defined.

(** One row, two categories with the values -3 and -8: the four records
    end with the values 0 and 0 * 1.05, not -3 * 1.05. *)
Lemma padding_counts_zero_row : ~ padding_from_real_max.
Proof.
  intros H.
  destruct (H one_row_negative_df two_categories messages)
    as (real & zero & top & m & v & Hout & _ & _ & Hin & _ & Hv & Heq).
  - split.
    + repeat constructor.
    + apply (bool_decide_unpack _). vm_compute. exact I.
  - exact two_categories_selection.
  - repeat constructor; intros p [= <-]; by eexists.
  - discriminate.
  - unfold nrows. simpl. lia.
  - vm_compute in Hout. injection Hout as Hout.
    change [?a; ?b; ?c; ?d] with ([a; b] ++ [c; d]) in Hout.
    apply app_inj_2 in Hout as [<- [= <- <-]]; [|reflexivity].
    cbn [Value] in Hv. injection Hv as <-.
    cbn [map Value] in Hin.
    apply elem_of_cons in Hin as [[= ->]|Hin];
      [vm_compute in Heq; discriminate Heq|].
    apply elem_of_cons in Hin as [[= ->]|Hin];
      [vm_compute in Heq; discriminate Heq|].
    by apply elem_of_nil in Hin.
Qed.

(** ** Long-form reshaper: the padding brackets the data *)

Lemma headroom_above (m : Q) : Qle 0 m -> Qle m (Qmult m headroom).
Proof. unfold headroom. intros H. lra. Qed.

(** C10. On a table of non-negative counters, the two synthetic records
    bracket the real data: every real value lies between the value 0 of
    the zero baseline record and the value of the headroom record. *)
Theorem padding_brackets_real_values (df : Table) sel kind :
  well_formed df -> selection sel -> columns_exist df kind sel ->
  sel <> [] -> (0 < nrows df)%nat -> non_negative df ->
  exists real zero top h,
    reshape df sel kind = Ok (real ++ [zero; top])
    /\ real = real_records df kind sel
    /\ Value zero = Some 0%Q
    /\ Value top = Some h
    /\ forall r v, r ∈ real -> Value r = Some v -> Qle 0 v /\ Qle v h.
Proof.
  intros Hwf Hsel Hcols Hne Hn Hpos.
  destruct (reshape_padded df sel kind Hwf Hsel Hcols Hne Hn)
    as (first & m & _ & _ & _ & (_ & Hm & Hmax) & Hout).
  eexists _, _, _, _. split; [exact Hout|].
  split; [reflexivity|]. split; [reflexivity|]. split; [reflexivity|].
  intros r v Hr Hv.
  assert (Hin : Some v ∈ map Value (real_records df kind sel)).
  { apply list_elem_of_fmap. by exists r. }
  split.
  - destruct (real_value_is_cell _ _ _ _ Hin) as (name & vals & z & Hc & Hz & ->).
    unfold non_negative in Hpos. rewrite Forall_forall in Hpos.
    specialize (Hpos _ Hc). simpl in Hpos. rewrite Forall_forall in Hpos.
    specialize (Hpos _ Hz z eq_refl).
    unfold Qle. simpl. lia.
  - eapply Qle_trans; [exact (Hmax _ Hin) | by apply headroom_above].
Qed.

Lemma padding_brackets_real_values_witness :
  exists real zero top h,
    reshape two_by_two_df two_categories sessions = Ok (real ++ [zero; top])
    /\ Value top = Some h
    /\ Forall (fun r => forall v, Value r = Some v -> Qle 0 v /\ Qle v h) real.
Proof.
  destruct (padding_brackets_real_values two_by_two_df two_categories sessions
              two_by_two_well_formed two_categories_selection
              two_by_two_columns_exist ltac:(discriminate)
              ltac:(unfold nrows; simpl; lia))
    as (real & zero & top & h & Hout & _ & _ & Htop & Hall).
  - repeat constructor; intros z [= <-]; lia.
  - exists real, zero, top, h. split; [exact Hout|]. split; [exact Htop|].
    apply Forall_forall. intros r Hr v Hv. by apply (Hall r).
Defined.

(** ** The table in the store *)

Lemma seq_ok {A B} (m : M A) (k : A -> M B) s s' a :
  m s = (s', Ok a) -> seq m k s = k a s'.
Proof. unfold seq. by intros ->. Qed.

Lemma seq_raise {A B} (m : M A) (k : A -> M B) s s' e :
  m s = (s', Raise e) -> seq m k s = (s', Raise e).
Proof. unfold seq. by intros ->. Qed.

Lemma seq_lift {A B} (r : result A) (k : A -> M B) s :
  seq (lift r) k s = match r with Ok a => k a s | Raise e => (s, Raise e) end.
Proof. unfold seq, lift. by destruct r. Qed.

Lemma get_filtered_df_holds t s :
  holds_table t s -> get_filtered_df s = (s, Ok t).
Proof. intros [Ht Hf]. unfold get_filtered_df. by rewrite Hf, Ht. Qed.

Lemma get_melted_is kind rows s :
  melted_is kind rows s -> get_melted kind s = (s, Ok rows).
Proof. intros (l & Hl & _ & Hrows). unfold get_melted. by rewrite Hl, Hrows. Qed.

Lemma bind_melted_spec kind rows t s :
  holds_table t s ->
  exists s', bind_melted kind rows s = (s', Ok tt)
    /\ var_df s' = var_df s
    /\ holds_table t s' /\ melted_is kind rows s'.
Proof.
  intros [Ht Hf]. eexists. split; [reflexivity|].
  assert (Hne : fresh (dom (heap s)) <> var_df s).
  { intros Heq. apply (is_fresh (dom (heap s))). rewrite Heq.
    apply elem_of_dom. by eexists. }
  split; [by destruct kind|]. split; [split|].
  - destruct kind; simpl; by rewrite lookup_insert_ne.
  - by destruct kind.
  - exists (fresh (dom (heap s))).
    destruct kind; simpl; (split; [reflexivity|]); (split; [exact Hne|]);
      apply lookup_insert_eq.
Qed.

Lemma set_melted_column_spec kind rows rows' t s :
  holds_table t s -> melted_is kind rows s ->
  exists s', set_melted_column kind rows' s = (s', Ok tt)
    /\ var_df s' = var_df s
    /\ holds_table t s' /\ melted_is kind rows' s'.
Proof.
  intros [Ht Hf] (l & Hl & Hne & _). unfold set_melted_column. rewrite Hl.
  eexists. split; [reflexivity|]. split; [reflexivity|]. split; [split|].
  - simpl. by rewrite lookup_insert_ne.
  - done.
  - exists l. split; [by destruct kind|]. split; [exact Hne|].
    simpl. apply lookup_insert_eq.
Qed.

Lemma run_total_spec t name s :
  holds_table t s -> run_total name s = (s, column_total t name).
Proof.
  intros H. unfold run_total.
  rewrite (seq_ok _ _ _ _ _ (get_filtered_df_holds t s H)). reflexivity.
Qed.

Lemma run_section_spec t kind sel s :
  holds_table t s ->
  exists s', run_section kind sel s = (s', chart_section kind t sel)
    /\ var_df s' = var_df s
    /\ holds_table t s'.
Proof.
  intros H. unfold run_section, chart_section. rewrite seq_lift.
  destruct (traverse (intent_column kind) sel) as [vars|e]; cbn [bind];
    [|by exists s].
  destruct sel as [|cat sel]; [by exists s|].
  rewrite (seq_ok _ _ _ _ _ (get_filtered_df_holds t s H)), seq_lift.
  destruct (melt t vars) as [melted|e]; cbn [bind]; [|by exists s].
  destruct (bind_melted_spec kind melted t s H) as (s1 & E1 & V1 & H1 & M1).
  rewrite (seq_ok _ _ _ _ _ E1), (seq_ok _ _ _ _ _ (get_melted_is _ _ _ M1)), seq_lift.
  destruct (relabel melted) as [relabelled|e]; cbn [bind]; [|by exists s1].
  destruct (set_melted_column_spec kind melted relabelled t s1 H1 M1)
    as (s2 & E2 & V2 & H2 & M2).
  rewrite V1 in V2.
  rewrite (seq_ok _ _ _ _ _ E2), (seq_ok _ _ _ _ _ (get_melted_is _ _ _ M2)).
  unfold pad. destruct relabelled as [|r rs]; [by exists s2|].
  rewrite seq_lift.
  destruct (zero_row _ (r :: rs)) as [zero|e]; cbn [bind]; [|by exists s2].
  destruct (bind_melted_spec kind (concat_row (r :: rs) zero) t s2 H2)
    as (s3 & E3 & V3 & H3 & M3).
  rewrite V2 in V3.
  rewrite (seq_ok _ _ _ _ _ E3), (seq_ok _ _ _ _ _ (get_melted_is _ _ _ M3)), seq_lift.
  destruct (top_buffer _ (concat_row (r :: rs) zero)) as [top|e]; cbn [bind];
    [|by exists s3].
  destruct (bind_melted_spec kind (concat_row (concat_row (r :: rs) zero) top) t s3 H3)
    as (s4 & E4 & V4 & H4 & M4).
  rewrite V3 in V4.
  rewrite (seq_ok _ _ _ _ _ E4), (seq_ok _ _ _ _ _ (get_melted_is _ _ _ M4)).
  by exists s4.
Qed.

Lemma run_call_spec t c s :
  holds_table t s ->
  exists s', run_call c s = (s', call_on t c)
    /\ var_df s' = var_df s
    /\ holds_table t s'.
Proof.
  intros H. destruct c as [name|kind sel]; simpl.
  - exists s. split; [|by split]. unfold seq. rewrite (run_total_spec t name s H).
    by destruct (column_total t name).
  - destruct (run_section_spec t kind sel s H) as (s' & E & V & H').
    exists s'. split; [|by split]. unfold seq. rewrite E.
    by destruct (chart_section kind t sel).
Qed.

Lemma run_calls_spec t cs s :
  holds_table t s ->
  var_df (fst (run_calls cs s)) = var_df s
  /\ holds_table t (fst (run_calls cs s))
  /\ snd (run_calls cs s) = map (call_on t) cs.
Proof.
  revert s. induction cs as [|c cs IH]; intros s H.
  - split; [reflexivity|]. split; [exact H | reflexivity].
  - destruct (run_call_spec t c s H) as (s1 & E & V & H1).
    simpl. rewrite E. specialize (IH s1 H1).
    destruct (run_calls cs s1) as [s2 rs]. simpl in *.
    destruct IH as (V2 & H2 & ->). rewrite V in V2.
    split; [exact V2|]. split; [exact H2 | reflexivity].
Qed.

(** C9. Once the table is loaded and [df] and [filtered_df] name it, no
    run of [sum] and [reshape] calls changes it: after the run both
    variables still name the same object, the object still is the table
    as loaded, columns, rows and values, and every call of the run has
    returned what it returns on that table.  The relabelling writes into
    the melted frame only and the padding builds new frames. *)
Theorem table_never_mutated (t : Table) (cs : list call) (s : state) :
  holds_table t s ->
  var_df (fst (run_calls cs s)) = var_df s
  /\ var_filtered_df (fst (run_calls cs s)) = var_df s
  /\ heap (fst (run_calls cs s)) !! var_df s = Some (Wide t)
  /\ snd (run_calls cs s) = map (call_on t) cs.
Proof.
  intros H. destruct (run_calls_spec t cs s H) as (V & [Ht Hf] & Hout).
  rewrite V in Ht, Hf. by repeat split.
Qed.

Lemma table_never_mutated_witness :
  heap (fst (run_calls dashboard_calls (after_load two_by_two_df))) !! 1%positive
  = Some (Wide two_by_two_df)
  /\ snd (run_calls dashboard_calls (after_load two_by_two_df))
     = map (call_on two_by_two_df) dashboard_calls.
Proof.
  assert (H : holds_table two_by_two_df (after_load two_by_two_df)).
  { split; [apply lookup_singleton_eq | reflexivity]. }
  destruct (table_never_mutated two_by_two_df dashboard_calls
              (after_load two_by_two_df) H) as (_ & _ & Ht & Hout).
  split; [exact Ht | exact Hout].
Defined.



(** * Further properties of the script *)

(** ** Loader: errors, shape and pairing with the registry *)

Lemma traverse_Raise_intro {A B} (f : A -> result B) pre a post e :
  Forall (fun x => exists b, f x = Ok b) pre ->
  f a = Raise e ->
  traverse f (pre ++ a :: post) = Raise e.
Proof.
  intros Hpre Ha. induction Hpre as [|x pre [b Hb] _ IH]; simpl.
  - by rewrite Ha.
  - by rewrite Hb, IH.
Qed.

Lemma traverse_Raise_inv {A B} (f : A -> result B) (l : list A) e :
  traverse f l = Raise e ->
  exists pre a post,
    l = pre ++ a :: post
    /\ Forall (fun x => exists b, f x = Ok b) pre
    /\ f a = Raise e.
Proof.
  induction l as [|x l IH]; simpl; [discriminate|].
  destruct (f x) as [b|e'] eqn:Ex; simpl.
  - destruct (traverse f l) as [bs|e'']; simpl; [discriminate|].
    intros [= <-]. destruct (IH eq_refl) as (pre & a & post & -> & Hpre & Ha).
    exists (x :: pre), a, post. split; [reflexivity|].
    split; [|exact Ha]. constructor; [by eexists | exact Hpre].
  - intros [= <-]. exists [], x, l. by repeat split.
Qed.

Lemma traverse_Raise {A B} (f : A -> result B) (l : list A) e :
  traverse f l = Raise e <->
  exists pre a post,
    l = pre ++ a :: post
    /\ Forall (fun x => exists b, f x = Ok b) pre
    /\ f a = Raise e.
Proof.
  split; [apply traverse_Raise_inv|].
  intros (pre & a & post & -> & Hpre & Ha). by apply traverse_Raise_intro.
Qed.

Lemma traverse_length {A B} (f : A -> result B) l bs :
  traverse f l = Ok bs -> length bs = length l.
Proof. intros H%traverse_Ok_Forall2. symmetry. by eapply Forall2_length. Qed.

Lemma to_datetime_cell_Ok (parse : string -> result Z) c :
  (exists t, to_datetime_cell parse c = Ok t)
  <-> forall s, c = Some s -> exists t, parse s = Ok t.
Proof.
  destruct c as [s|]; simpl.
  - split.
    + intros [t Ht] s' [= <-]. destruct (parse s); [by eexists | discriminate].
    + intros H. destruct (H s eq_refl) as [t ->]. by eexists.
  - split; [by intros _ s | by eexists].
Qed.

Lemma to_datetime_Raise parse raw e :
  to_datetime parse raw = Raise e <->
  exists first pre s post,
    first_text raw = Some first
    /\ raw = pre ++ Some s :: post
    /\ Forall (fun c : option string =>
                 forall s', c = Some s' -> exists t, parser_for parse first s' = Ok t) pre
    /\ parser_for parse first s = Raise e.
Proof.
  unfold to_datetime. split.
  - destruct (first_text raw) as [first|]; [|discriminate].
    destruct (traverse _ raw) as [ts|e'] eqn:E; simpl; [discriminate|].
    intros [= <-].
    apply traverse_Raise_inv in E as (pre & c & post & -> & Hpre & Hc).
    destruct c as [s|]; [|discriminate]. simpl in Hc.
    exists first, pre, s, post. split; [reflexivity|]. split; [reflexivity|]. split.
    + eapply Forall_impl; [exact Hpre|]. intros c. apply to_datetime_cell_Ok.
    + destruct (parser_for parse first s); simpl in Hc; [discriminate | congruence].
  - intros (first & pre & s & post & -> & -> & Hpre & Hs).
    rewrite (traverse_Raise_intro _ pre (Some s) post e); [reflexivity| |].
    + eapply Forall_impl; [exact Hpre|]. intros c. apply to_datetime_cell_Ok.
    + simpl. by rewrite Hs.
Qed.

(** X2. [load_data()] raises in three ways only: a failed read of the
    file passes its error on; a file read without a [date_] column raises
    [KeyError('date_')] at the dtype test, whatever else it holds; and the
    conversion of a [date_] column of dtype [object] raises the error of
    the first text that the parser of the column, fixed by the first text
    of the column, rejects.  A typed [date_] column is never converted,
    a column of nulls only is converted without error, and the renaming
    never raises. *)
Theorem load_data_raises parse read e :
  load_data_from parse read = Raise e <->
  read = Raise e
  \/ (exists csv, read = Ok csv /\ date_ csv = None /\ e = KeyError "date_")
  \/ (exists csv raw first pre s post,
        read = Ok csv /\ date_ csv = Some (ObjectDates raw)
        /\ first_text raw = Some first
        /\ raw = pre ++ Some s :: post
        /\ Forall (fun c : option string =>
                     forall s', c = Some s' ->
                       exists t, parser_for parse first s' = Ok t) pre
        /\ parser_for parse first s = Raise e).
Proof.
  assert (Hload : forall d cols,
    load_data parse (mkDataFrame d cols) = Raise e
    <-> exists raw, d = ObjectDates raw /\ to_datetime parse raw = Raise e).
  { intros d cols. unfold load_data. simpl. destruct d as [raw|d]; simpl.
    - destruct (to_datetime parse raw) as [ds|e'] eqn:Ht; simpl; split.
      + discriminate.
      + intros (raw' & [= <-] & Ht'). congruence.
      + intros [= <-]. by exists raw.
      + intros (raw' & [= <-] & Ht'). congruence.
    - split; [discriminate | by intros (raw & [=] & _)]. }
  unfold load_data_from. destruct read as [csv|e']; simpl.
  - destruct (date_ csv) as [d|] eqn:Hd.
    + rewrite Hload. split.
      * intros (raw & -> & (first & pre & s & post & H)%to_datetime_Raise).
        right. right. by exists csv, raw, first, pre, s, post.
      * intros [[=]|[(csv' & [= <-] & Hd' & _)
                    |(csv' & raw & first & pre & s & post & [= <-] & Hd' & H)]];
          [congruence|].
        rewrite Hd in Hd'. injection Hd' as ->.
        exists raw. split; [reflexivity|]. apply to_datetime_Raise.
        by exists first, pre, s, post.
    + split.
      * intros [= <-]. right. left. by exists csv.
      * intros [[=]|[(csv' & [= <-] & _ & ->)
                    |(csv' & raw & first & pre & s & post & [= <-] & Hd' & _)]];
          congruence.
  - split.
    + intros [= <-]. by left.
    + intros [[= <-]|[(csv' & [=] & _)|(csv' & raw & first & pre & s & post & [=] & _)]].
      reflexivity.
Qed.

Lemma load_data_raises_witness :
  load_data_from parse_digits
    (Ok (mkDataFrame None [("overall_sessions", [Some 5; Some 7])]))
  = Raise (KeyError "date_")
  /\ load_data_from parse_digits
       (Ok (mkDataFrame
              (Some (ObjectDates [Some "2024-11-01"; None; Some "2024-13-01";
                                  Some "2024-11-31"]))
              [("overall_sessions", [Some 5; Some 7; Some 1; Some 2])]))
     = Raise (ParserError "2024-13-01").
Proof.
  split.
  - apply load_data_raises. right. left. by eexists.
  - apply load_data_raises. right. right.
    eexists _, _, "2024-11-01", [Some "2024-11-01"; None], "2024-13-01",
      [Some "2024-11-31"].
    split; [reflexivity|]. split; [reflexivity|]. split; [reflexivity|].
    split; [reflexivity|]. split; [|reflexivity].
    repeat first [apply List.Forall_cons | apply List.Forall_nil].
    + intros s' [= <-]. by eexists.
    + intros s' [=].
Defined.

Lemma rename_label_idempotent name : rename_label (rename_label name) = rename_label name.
Proof. apply rename_label_other, rename_label_not_legacy. Qed.

Lemma load_data_dates parse csv df :
  load_data parse csv = Ok df ->
  normalize_dates parse (date_ csv) = Ok (date_ df).
Proof.
  unfold load_data. destruct (normalize_dates parse (date_ csv)); simpl; [|discriminate].
  by intros [= <-].
Qed.

(** X1. Loading is idempotent on its own result: a frame that
    [load_data] has produced, handed to [load_data] again, comes back
    unchanged, dates, labels and values. *)
Theorem load_data_idempotent parse csv df :
  load_data parse csv = Ok df ->
  load_data parse (mkDataFrame (TypedDates (date_ df)) (columns df)) = Ok df.
Proof.
  intros H. pose proof (load_data_columns _ _ _ H) as Hc.
  unfold load_data. simpl. f_equal. destruct df as [d cs]. simpl in *.
  unfold rename. simpl. f_equal. rewrite Hc. unfold rename. simpl.
  rewrite <- list_fmap_compose. apply list_fmap_ext. intros i [n vals] _. simpl.
  by rewrite rename_label_idempotent.
Qed.

Lemma load_data_idempotent_witness :
  exists df, load_data parse_digits legacy_csv = Ok df
    /\ load_data parse_digits (mkDataFrame (TypedDates (date_ df)) (columns df)) = Ok df.
Proof.
  eexists. split; [reflexivity|].
  exact (load_data_idempotent parse_digits legacy_csv _ eq_refl).
Defined.

Lemma labels_load_data parse csv df :
  load_data parse csv = Ok df -> labels df = map rename_label (labels csv).
Proof.
  intros H%load_data_columns. unfold labels. rewrite H. unfold rename. simpl.
  rewrite <- !list_fmap_compose. reflexivity.
Qed.

Lemma to_datetime_length parse raw ds :
  to_datetime parse raw = Ok ds -> length (stamps ds) = length raw.
Proof.
  unfold to_datetime. destruct (first_text raw) as [first|].
  - destruct (traverse _ raw) as [ts|] eqn:E; simpl; [|discriminate].
    intros [= <-]. simpl. by eapply traverse_length.
  - intros [= <-]. simpl. by rewrite length_map.
Qed.

Lemma nrows_load_data parse csv df :
  load_data parse csv = Ok df -> nrows df = csv_rows (date_ csv).
Proof.
  intros H%load_data_dates. unfold nrows, csv_rows.
  destruct (date_ csv) as [raw|d]; simpl in H.
  - by apply to_datetime_length in H.
  - by injection H as <-.
Qed.

Lemma rename_map_injective :
  forall old new, (old, new) ∈ rename_map ->
  forall old' new', (old', new') ∈ rename_map -> new = new' -> old = old'.
Proof.
  rename_map_cases; rename_map_cases; intros [=]; reflexivity.
Qed.

Lemma legacy_name_renamed old :
  old ∈ legacy_names -> (old, rename_label old) ∈ rename_map.
Proof.
  intros (c & -> & Hc)%list_elem_of_fmap. destruct c as [old new]. simpl.
  by rewrite (rename_label_legacy old new Hc).
Qed.

Lemma rename_label_injective_on (names : list string) :
  (forall old new, (old, new) ∈ rename_map -> old ∈ names -> new ∉ names) ->
  forall n1 n2, n1 ∈ names -> n2 ∈ names ->
    rename_label n1 = rename_label n2 -> n1 = n2.
Proof.
  intros Hclash n1 n2 H1 H2 Heq.
  destruct (decide (n1 ∈ legacy_names)) as [L1|L1];
    destruct (decide (n2 ∈ legacy_names)) as [L2|L2].
  - apply legacy_name_renamed in L1, L2.
    by apply (rename_map_injective _ _ L1 _ _ L2).
  - rewrite (rename_label_other n2 L2) in Heq.
    apply legacy_name_renamed in L1. exfalso.
    apply (Hclash _ _ L1 H1). by rewrite Heq.
  - rewrite (rename_label_other n1 L1) in Heq.
    apply legacy_name_renamed in L2. exfalso.
    apply (Hclash _ _ L2 H2). by rewrite <- Heq.
  - by rewrite (rename_label_other n1 L1), (rename_label_other n2 L2) in Heq.
Qed.

Lemma load_data_shape parse csv df :
  load_data parse csv = Ok df ->
  Forall (fun c : string * list cell => length (snd c) = csv_rows (date_ csv))
         (columns csv) ->
  NoDup (labels csv) ->
  no_rename_clash csv ->
  nrows df = csv_rows (date_ csv) /\ well_formed df.
Proof.
  intros H Hlen Hnd Hclash.
  pose proof (nrows_load_data _ _ _ H) as Hn. split; [exact Hn|]. split.
  - rewrite Hn, (load_data_columns _ _ _ H). unfold rename. simpl.
    apply Forall_fmap. eapply Forall_impl; [exact Hlen|]. by intros [n vals].
  - rewrite (labels_load_data _ _ _ H).
    apply NoDup_fmap_2_strong; [|exact Hnd].
    intros n1 n2 H1 H2. by apply rename_label_injective_on with (labels csv).
Qed.

(** X3. [load_data] keeps the shape of the frame: the table has the rows
    that were read, every column keeps its length, and labels that were
    distinct stay distinct unless the file holds a legacy column beside
    the column it is renamed to; so a well-formed file gives a well-formed
    table. *)
Theorem load_data_well_formed parse csv df :
  load_data parse csv = Ok df ->
  Forall (fun c : string * list cell => length (snd c) = csv_rows (date_ csv))
         (columns csv) ->
  NoDup (labels csv) ->
  no_rename_clash csv ->
  nrows df = csv_rows (date_ csv) /\ well_formed df.
Proof. apply load_data_shape. Qed.

Lemma legacy_csv_no_clash : no_rename_clash legacy_csv.
Proof.
  unfold no_rename_clash. rename_map_cases; intros _;
    apply (bool_decide_unpack _); vm_compute; exact I.
Qed.

Lemma load_data_well_formed_witness :
  exists df, load_data parse_digits legacy_csv = Ok df
    /\ nrows df = 2%nat /\ well_formed df.
Proof.
  eexists. split; [reflexivity|].
  apply (load_data_well_formed parse_digits legacy_csv _ eq_refl).
  - repeat constructor.
  - apply (bool_decide_unpack _). vm_compute. exact I.
  - exact legacy_csv_no_clash.
Defined.

(** X4. A file that holds a legacy column beside the column it is renamed
    to is loaded into a table with two columns under one label. *)
Theorem load_data_duplicates_clashing_labels parse csv df old new :
  load_data parse csv = Ok df ->
  (old, new) ∈ rename_map ->
  old ∈ labels csv -> new ∈ labels csv ->
  ~ NoDup (labels df).
Proof.
  intros H Hin Hold Hnew Hnd.
  rewrite (labels_load_data _ _ _ H) in Hnd.
  apply list_elem_of_lookup in Hold as [i Hi].
  apply list_elem_of_lookup in Hnew as [j Hj].
  assert (Hne : i <> j).
  { intros ->. rewrite Hi in Hj. injection Hj as ->.
    apply (canonical_not_legacy _ _ Hin).
    apply list_elem_of_fmap. by exists (new, new). }
  apply Hne. eapply NoDup_lookup; [exact Hnd| |].
  - rewrite list_lookup_fmap, Hi. simpl. by rewrite (rename_label_legacy _ _ Hin).
  - rewrite list_lookup_fmap, Hj. simpl. f_equal.
    apply rename_label_other. by apply (canonical_not_legacy _ _ Hin).
Qed.

Lemma load_data_duplicates_clashing_labels_witness :
  exists df,
    load_data parse_digits clashing_csv = Ok df /\ ~ NoDup (labels df).
Proof.
  eexists. split; [reflexivity|].
  apply (load_data_duplicates_clashing_labels parse_digits clashing_csv _
           "sb_sessions" "sb_hardware_sessions" eq_refl);
    apply (bool_decide_unpack _); vm_compute; exact I.
Defined.

Lemma dict_get_is_Some {V} (d : list (string * V)) k :
  k ∈ map fst d -> is_Some (dict_get d k).
Proof.
  induction d as [|[k' v] d IH]; simpl.
  - intros H. by apply elem_of_nil in H.
  - destruct (String.eqb_spec k' k) as [->|Hne]; [by eexists|].
    intros [H|H]%elem_of_cons; [congruence | auto].
Qed.

Lemma derived_not_legacy kind :
  forall label p, (label, p) ∈ category_mapping ->
    (p ++ metric_suffix kind)%string ∉ legacy_names.
Proof.
  destruct kind; registry_cases; apply (bool_decide_unpack _); vm_compute; exact I.
Qed.

Lemma load_data_columns_exist parse csv df kind sel :
  load_data parse csv = Ok df ->
  Forall (fun cat => forall p, dict_get category_mapping cat = Some p ->
            csv_has_column csv (p ++ metric_suffix kind)%string) sel ->
  columns_exist df kind sel.
Proof.
  intros H Hsel. unfold columns_exist.
  eapply Forall_impl; [exact Hsel|]. intros cat Hcat p Hp.
  apply dict_get_is_Some. change (map fst (columns df)) with (labels df).
  rewrite (labels_load_data _ _ _ H).
  destruct (Hcat p Hp) as [Hin|(old & Hold & Hin)].
  - apply list_elem_of_fmap. exists (p ++ metric_suffix kind)%string.
    split; [|exact Hin]. symmetry. apply rename_label_other.
    apply dict_get_elem_of in Hp. by apply (derived_not_legacy kind cat).
  - apply list_elem_of_fmap. exists old. split; [|exact Hin].
    symmetry. by apply rename_label_legacy.
Qed.

(** X5. The loader and the registry are paired: when the file has the
    column of a selected category, under the label the registry derives or
    under the legacy label renamed to it, the loaded table has the column
    the chart looks up. *)
Theorem load_data_provides_columns parse csv df kind sel :
  load_data parse csv = Ok df ->
  Forall (fun cat => forall p, dict_get category_mapping cat = Some p ->
            csv_has_column csv (p ++ metric_suffix kind)%string) sel ->
  columns_exist df kind sel.
Proof. apply load_data_columns_exist. Qed.

Lemma load_data_provides_columns_witness :
  exists df, load_data parse_digits legacy_csv = Ok df
    /\ columns_exist df sessions ["Soundbox Hardware"; "EDC Hardware"; "Payment Acceptence"].
Proof.
  eexists. split; [reflexivity|].
  apply (load_data_provides_columns parse_digits legacy_csv _ sessions _ eq_refl).
  repeat first [apply List.Forall_cons | apply List.Forall_nil];
    intros p [= <-]; right.
  - exists "sb_sessions". split; apply (bool_decide_unpack _); vm_compute; exact I.
  - exists "edc_sessions". split; apply (bool_decide_unpack _); vm_compute; exact I.
  - exists "payment_acceptence_sessions".
    split; apply (bool_decide_unpack _); vm_compute; exact I.
Defined.

(** ** Registry: derived columns *)

Lemma derived_columns_distinct kind1 kind2 :
  forall label1 p1, (label1, p1) ∈ category_mapping ->
  forall label2 p2, (label2, p2) ∈ category_mapping ->
    (p1 ++ metric_suffix kind1)%string = (p2 ++ metric_suffix kind2)%string ->
    label1 = label2 /\ kind1 = kind2.
Proof.
  destruct kind1, kind2; registry_cases; registry_cases;
    vm_compute; intros H; first [discriminate H | split; reflexivity].
Qed.

Lemma intent_column_Ok kind cat x :
  intent_column kind cat = Ok x ->
  exists p, dict_get category_mapping cat = Some p
    /\ x = (p ++ metric_suffix kind)%string.
Proof.
  unfold intent_column, prefix_of.
  destruct (dict_get category_mapping cat) as [p|]; simpl; [|discriminate].
  intros [= <-]. by exists p.
Qed.

(** X6. No two (category, metric) pairs share a column: the derived
    column names of distinct categories are distinct, a sessions column is
    never a messages column, and so the value columns handed to [melt]
    for a selection without repetition are without repetition. *)
Theorem intent_columns_distinct :
  (forall kind1 kind2 cat1 cat2 x,
     intent_column kind1 cat1 = Ok x -> intent_column kind2 cat2 = Ok x ->
     cat1 = cat2 /\ kind1 = kind2)
  /\ (forall kind sel vars,
        NoDup sel -> traverse (intent_column kind) sel = Ok vars -> NoDup vars).
Proof.
  assert (Hinj : forall kind1 kind2 cat1 cat2 x,
             intent_column kind1 cat1 = Ok x -> intent_column kind2 cat2 = Ok x ->
             cat1 = cat2 /\ kind1 = kind2).
  { intros kind1 kind2 cat1 cat2 x (p1 & H1 & ->)%intent_column_Ok
      (p2 & H2 & Heq)%intent_column_Ok.
    apply dict_get_elem_of in H1, H2.
    by apply (derived_columns_distinct kind1 kind2 cat1 p1 H1 cat2 p2 H2). }
  split; [exact Hinj|].
  intros kind sel vars Hnd Hv%traverse_Ok_Forall2.
  induction Hv as [|cat x sel vars Hx Hv IH]; [constructor|].
  apply NoDup_cons in Hnd as [Hnotin Hnd].
  apply NoDup_cons. split; [|by apply IH].
  intros Hin. apply Hnotin.
  apply list_elem_of_lookup in Hin as [i Hi].
  destruct (Forall2_lookup_r _ _ _ _ _ Hv Hi) as (cat' & Hcat' & Hx').
  destruct (Hinj kind kind cat cat' x Hx Hx') as [-> _].
  by eapply list_elem_of_lookup_2.
Qed.

(** ** Chart sections: outcomes *)

(** X7. A selected label that is not a key of the registry makes the
    section raise [KeyError] for the first such label, whatever the table
    and whatever follows in the selection. *)
Theorem chart_section_unknown_category kind df pre cat post :
  Forall (fun c => is_Some (dict_get category_mapping c)) pre ->
  dict_get category_mapping cat = None ->
  chart_section kind df (pre ++ cat :: post) = Raise (KeyError cat).
Proof.
  intros Hpre Hcat. unfold chart_section.
  rewrite (traverse_Raise_intro (intent_column kind) pre cat post (KeyError cat)).
  - reflexivity.
  - eapply Forall_impl; [exact Hpre|]. intros c [p Hp].
    unfold intent_column, prefix_of. rewrite Hp. by eexists.
  - unfold intent_column, prefix_of. by rewrite Hcat.
Qed.

Lemma chart_section_unknown_category_witness :
  chart_section messages two_by_two_df ["Profile"; "Refunds"; "Others"]
  = Raise (KeyError "Refunds").
Proof.
  apply (chart_section_unknown_category messages two_by_two_df
           ["Profile"] "Refunds" ["Others"]).
  - repeat constructor. by eexists.
  - reflexivity.
Defined.

Lemma intent_columns_valid kind sel vars :
  traverse (intent_column kind) sel = Ok vars ->
  Forall (fun c => is_Some (dict_get category_mapping c)) sel.
Proof.
  intros Hv%traverse_Ok_Forall2.
  induction Hv as [|cat x sel vars Hx _ IH]; constructor; [|exact IH].
  apply intent_column_Ok in Hx as (p & Hp & _). by eexists.
Qed.

Lemma melt_columns_exist df kind sel vars melted :
  traverse (intent_column kind) sel = Ok vars ->
  melt df vars = Ok melted ->
  columns_exist df kind sel.
Proof.
  intros Hv%traverse_Ok_Forall2 Hm%melt_Ok. unfold stack_columns in Hm.
  destruct (traverse _ vars) as [blocks|] eqn:Hb; simpl in Hm; [|discriminate].
  apply traverse_Ok_Forall2 in Hb. clear Hm.
  unfold columns_exist. apply Forall_lookup. intros i cat Hi p Hp.
  destruct (Forall2_lookup_l _ _ _ _ _ Hv Hi) as (x & Hx & Hcat).
  apply intent_column_Ok in Hcat as (p' & Hp' & ->).
  rewrite Hp in Hp'. injection Hp' as <-.
  destruct (Forall2_lookup_l _ _ _ _ _ Hb Hx) as (block & _ & Hcol).
  unfold column in Hcol.
  destruct (dict_get (columns df) (p ++ metric_suffix kind)) as [vals|];
    [by eexists | discriminate].
Qed.

(** X8. On a well-formed table and a selection without repetition, a
    chart section ends in one of four ways: the notice, for the empty
    selection; the [KeyError] of the registry subscript, for the first
    selected label the registry does not know; the [KeyError] of [melt],
    which lists the derived columns of the selection that the table
    lacks, when the registry knows every selected label and the table
    lacks some of their columns; or a line chart whose data begins with
    the real records.  It never raises [IndexError]: the first-match
    lookup of the relabelling always finds an entry, and [iloc[0]] is
    reached on a non-empty frame only. *)
Theorem chart_section_outcomes kind (df : Table) sel :
  well_formed df ->
  NoDup sel ->
  (sel = []
   /\ chart_section kind df sel = Ok (info "Please select at least one category."))
  \/ (sel <> []
      /\ Forall (fun c => is_Some (dict_get category_mapping c)) sel
      /\ columns_exist df kind sel
      /\ exists tail,
           chart_section kind df sel
           = Ok (line_chart (real_records df kind sel ++ tail)))
  \/ (sel <> []
      /\ exists pre k post,
           sel = pre ++ k :: post
           /\ Forall (fun c => is_Some (dict_get category_mapping c)) pre
           /\ dict_get category_mapping k = None
           /\ chart_section kind df sel = Raise (KeyError k))
  \/ (sel <> []
      /\ Forall (fun c => is_Some (dict_get category_mapping c)) sel
      /\ exists names,
           chart_section kind df sel = Raise (MissingColumns names)
           /\ names <> []
           /\ forall k, k ∈ names <->
                 (k ∉ labels df)
                 /\ exists cat, cat ∈ sel /\ intent_column kind cat = Ok k).
Proof.
  intros _ _.
  destruct sel as [|cat0 sel0]; [left; by split|]. right.
  set (sel := cat0 :: sel0).
  destruct (traverse (intent_column kind) sel) as [vars|e] eqn:Hv.
  - pose proof (intent_columns_valid _ _ _ Hv) as Hvalid.
    destruct (melt df vars) as [melted|e] eqn:Hm.
    + left. pose proof (melt_columns_exist _ _ _ _ _ Hv Hm) as Hcols.
      split; [discriminate|]. split; [exact Hvalid|]. split; [exact Hcols|].
      destruct (pipeline_real_records df kind sel Hvalid Hcols)
        as (vars' & melted' & Hv' & Hm' & Hr').
      rewrite Hv in Hv'. injection Hv' as <-.
      rewrite Hm in Hm'. injection Hm' as <-.
      destruct (pad_keeps_prefix (real_records df kind sel)) as [tail Hpad].
      exists tail. unfold chart_section. rewrite Hv. cbn [bind].
      subst sel. rewrite Hm. cbn [bind]. rewrite Hr'. cbn [bind].
      by rewrite Hpad.
    + right. right. split; [discriminate|]. split; [exact Hvalid|].
      destruct (melt_Raise _ _ _ Hm) as [-> Hne].
      exists (missing_labels df vars). split; [|split; [exact Hne|]].
      * unfold chart_section. rewrite Hv. cbn [bind].
        subst sel. by rewrite Hm.
      * intros k. rewrite missing_labels_spec.
        apply traverse_Ok_Forall2 in Hv. split.
        -- intros [[i Hi]%list_elem_of_lookup Hk]. split; [exact Hk|].
           destruct (Forall2_lookup_r _ _ _ i k Hv Hi) as (cat & Hcat & Hcx).
           exists cat. split; [by eapply list_elem_of_lookup_2 | exact Hcx].
        -- intros [Hk (cat & [i Hi]%list_elem_of_lookup & Hcx)]. split; [|exact Hk].
           destruct (Forall2_lookup_l _ _ _ i cat Hv Hi) as (k' & Hk' & Hcx').
           rewrite Hcx in Hcx'. injection Hcx' as <-.
           by eapply list_elem_of_lookup_2.
  - right. left. split; [discriminate|].
    assert (Hv' := Hv).
    apply traverse_Raise_inv in Hv' as (pre & a & post & Hsel & Hpre & Ha).
    unfold intent_column, prefix_of in Ha.
    destruct (dict_get category_mapping a) eqn:Hget; simpl in Ha; [discriminate|].
    injection Ha as <-. exists pre, a, post.
    split; [exact Hsel|]. split; [|split; [exact Hget|]].
    + eapply Forall_impl; [exact Hpre|]. intros c [x Hx].
      apply intent_column_Ok in Hx as (p & Hp & _). by eexists.
    + unfold chart_section. by rewrite Hv.
Qed.

Lemma chart_section_outcomes_witness :
  chart_section sessions two_by_two_df ["Profile"; "EDC Hardware"; "Refund"]
  = Raise (MissingColumns ["edc_hardware_sessions"; "refund_sessions"])
  /\ "refund_sessions" ∉ labels two_by_two_df.
Proof.
  assert (E : chart_section sessions two_by_two_df ["Profile"; "EDC Hardware"; "Refund"]
              = Raise (MissingColumns ["edc_hardware_sessions"; "refund_sessions"]))
    by reflexivity.
  split; [exact E|].
  destruct (chart_section_outcomes sessions two_by_two_df
              ["Profile"; "EDC Hardware"; "Refund"])
    as [[H _]|[(_ & _ & _ & tail & H)|[(_ & pre & k & post & _ & _ & _ & H)
       |(_ & _ & names & H & _ & Hnames)]]].
  - exact two_by_two_well_formed.
  - apply (bool_decide_unpack _). vm_compute. exact I.
  - discriminate H.
  - rewrite E in H. discriminate H.
  - rewrite E in H. discriminate H.
  - rewrite E in H. injection H as <-.
    apply (Hnames "refund_sessions"). right. left.
Defined.

(** ** Reshaper: dates, labels and padding *)

Lemma fmap_zip_with_left {A B C D} (f : A -> B -> C) (g : C -> D) (h : A -> D)
    (l : list A) (k : list B) :
  (forall x y, g (f x y) = h x) -> (length l <= length k)%nat ->
  map g (zip_with f l k) = map h l.
Proof.
  intros Hg. revert k. induction l as [|x l IH]; intros [|y k] Hlen;
    simpl in *; try reflexivity; try lia.
  rewrite Hg, IH by lia. reflexivity.
Qed.

Lemma real_records_dates_labels df kind sel :
  well_formed df ->
  Forall (fun cat => is_Some (dict_get category_mapping cat)) sel ->
  columns_exist df kind sel ->
  map m_date (real_records df kind sel)
  = mjoin (map (fun _ => stamps (date_ df)) sel)
  /\ map Intent (real_records df kind sel)
     = mjoin (map (fun cat => map (fun _ => cat) (stamps (date_ df))) sel).
Proof.
  intros Hwf Hsel Hcols. unfold columns_exist in Hcols.
  induction sel as [|cat sel IH]; [by split|].
  apply Forall_cons in Hsel as [[p Hp] Hsel].
  apply Forall_cons in Hcols as [Hc Hcols].
  destruct (Hc p Hp) as [vals Hvals]. destruct (IH Hsel Hcols) as [IHd IHl].
  pose proof (well_formed_column _ _ _ Hwf Hvals) as Hlen. unfold nrows in Hlen.
  rewrite real_records_cons, !map_app, IHd, IHl.
  rewrite (category_rows_eq _ _ _ _ _ Hp Hvals). unfold melt_column.
  rewrite (fmap_zip_with_left _ m_date (fun d => d)) by (done || lia).
  rewrite (fmap_zip_with_left _ Intent (fun _ => cat)) by (done || lia).
  by rewrite map_id.
Qed.

(** X9. The sessions chart and the messages chart of one selection run
    over the same dates and labels: record by record, padding included,
    they differ in their values only. *)
Theorem sessions_and_messages_aligned (df : Table) sel :
  well_formed df -> selection sel ->
  columns_exist df sessions sel -> columns_exist df messages sel ->
  exists s m,
    reshape df sel sessions = Ok s
    /\ reshape df sel messages = Ok m
    /\ map m_date s = map m_date m
    /\ map Intent s = map Intent m.
Proof.
  intros Hwf Hsel Hs Hm.
  destruct sel as [|cat sel]; [by exists [], []|].
  destruct (real_records_dates_labels df sessions _ Hwf (proj2 Hsel) Hs) as [Ds Ls].
  destruct (real_records_dates_labels df messages _ Hwf (proj2 Hsel) Hm) as [Dm Lm].
  rewrite !reshape_selected by (done || discriminate).
  destruct (real_records df sessions (cat :: sel)) as [|rs ss] eqn:Es;
    destruct (real_records df messages (cat :: sel)) as [|rm sm] eqn:Em.
  - by exists [], [].
  - rewrite <- Ds in Dm. discriminate Dm.
  - rewrite <- Dm in Ds. discriminate Ds.
  - destruct (pad_nonempty (rs :: ss) (Intent rs) eq_refl) as (ms & _ & _ & ->).
    destruct (pad_nonempty (rm :: sm) (Intent rm) eq_refl) as (mm & _ & _ & ->).
    eexists _, _. split; [reflexivity|]. split; [reflexivity|].
    rewrite !map_app, Ds, Dm, Ls, Lm. cbn [map m_date Intent].
    rewrite <- Ds in Dm. rewrite <- Ls in Lm.
    assert (Intent rm = Intent rs) as -> by (by injection Lm).
    split; reflexivity.
Qed.

Lemma both_kinds_well_formed : well_formed both_kinds_df.
Proof.
  split.
  - repeat constructor.
  - apply (bool_decide_unpack _). vm_compute. exact I.
Qed.

Lemma profile_selection : selection ["Profile"].
Proof.
  split.
  - apply (bool_decide_unpack _). vm_compute. exact I.
  - repeat constructor; by eexists.
Qed.

Lemma sessions_and_messages_aligned_witness :
  exists s m,
    reshape both_kinds_df ["Profile"] sessions = Ok s
    /\ reshape both_kinds_df ["Profile"] messages = Ok m
    /\ map m_date s = map m_date m
    /\ map Intent s = map Intent m.
Proof.
  apply (sessions_and_messages_aligned both_kinds_df ["Profile"]
           both_kinds_well_formed profile_selection);
    repeat constructor; intros p [= <-]; by eexists.
Defined.

Lemma is_series_min_unique s d d' :
  is_series_min s d -> is_series_min s d' -> d = d'.
Proof.
  unfold is_series_min. destruct d as [z|], d' as [z'|]; try done.
  - intros [Hin Hle] [Hin' Hle']. f_equal.
    specialize (Hle _ Hin'). specialize (Hle' _ Hin). lia.
  - intros [Hin _] Hnone. rewrite Forall_forall in Hnone.
    by specialize (Hnone _ Hin).
  - intros Hnone [Hin _]. rewrite Forall_forall in Hnone.
    by specialize (Hnone _ Hin).
Qed.

Lemma series_min_ext s s' :
  (forall x, x ∈ s <-> x ∈ s') -> series_min s = series_min s'.
Proof.
  intros Hext. apply (is_series_min_unique s'); [|apply series_min_spec].
  pose proof (series_min_spec s) as H. unfold is_series_min in *.
  destruct (series_min s) as [z|].
  - destruct H as [Hin Hle]. split; [by apply Hext|].
    intros z' Hz'. apply Hle. by apply Hext.
  - rewrite Forall_forall in H. apply Forall_forall. intros x Hx.
    apply H. by apply Hext.
Qed.

Lemma series_min_real_records df kind sel :
  well_formed df ->
  Forall (fun cat => is_Some (dict_get category_mapping cat)) sel ->
  columns_exist df kind sel -> sel <> [] ->
  series_min (map m_date (real_records df kind sel))
  = series_min (stamps (date_ df)).
Proof.
  intros Hwf Hsel Hcols Hne.
  rewrite (proj1 (real_records_dates_labels df kind sel Hwf Hsel Hcols)).
  apply series_min_ext. intros x. rewrite list_elem_of_join. split.
  - intros (l & Hx & Hl). apply list_elem_of_fmap in Hl as (cat & -> & _). exact Hx.
  - intros Hx. exists (stamps (date_ df)). split; [exact Hx|].
    destruct sel as [|cat sel]; [congruence|]. left.
Qed.

(** X10. The two synthetic records sit at the least date of the table's
    date column (nulls stepped over) and under the label of the first
    category of the selection, in the sessions chart as in the messages
    chart, whatever the values charted. *)
Theorem padding_date_and_label (df : Table) sel kind :
  well_formed df -> selection sel -> columns_exist df kind sel ->
  sel <> [] -> (0 < nrows df)%nat ->
  exists real zero top cat,
    reshape df sel kind = Ok (real ++ [zero; top])
    /\ sel !! (0%nat) = Some cat
    /\ Intent zero = cat /\ Intent top = cat
    /\ m_date zero = series_min (stamps (date_ df))
    /\ m_date top = series_min (stamps (date_ df))
    /\ is_series_min (stamps (date_ df)) (m_date zero).
Proof.
  intros Hwf Hsel Hcols Hne Hn.
  destruct (reshape_padded df sel kind Hwf Hsel Hcols Hne Hn)
    as (first & m & _ & Hcat & _ & _ & Hout).
  rewrite (series_min_real_records df kind sel Hwf (proj2 Hsel) Hcols Hne) in Hout.
  eexists _, _, _, (Intent first). split; [exact Hout|].
  split; [exact Hcat|]. do 4 (split; [reflexivity|]).
  apply series_min_spec.
Qed.

Lemma padding_date_and_label_witness :
  exists real zero top,
    reshape two_by_two_df two_categories sessions = Ok (real ++ [zero; top])
    /\ Intent top = "Soundbox Hardware"
    /\ m_date top = Some 20240101.
Proof.
  destruct (padding_date_and_label two_by_two_df two_categories sessions
              two_by_two_well_formed two_categories_selection
              two_by_two_columns_exist ltac:(discriminate)
              ltac:(unfold nrows; simpl; lia))
    as (real & zero & top & cat & Hout & Hcat & _ & Htop & _ & Hdate & _).
  exists real, zero, top. split; [exact Hout|].
  injection Hcat as <-. split; [exact Htop | exact Hdate].
Defined.

(** X11. For every table, negative counters included, the headroom record
    is non-negative and at least every real value: the chart's value axis
    always spans 0 and all the data. *)
Theorem headroom_covers_every_table (df : Table) sel kind :
  well_formed df -> selection sel -> columns_exist df kind sel ->
  sel <> [] -> (0 < nrows df)%nat ->
  exists real zero top h,
    reshape df sel kind = Ok (real ++ [zero; top])
    /\ real = real_records df kind sel
    /\ Value zero = Some 0%Q
    /\ Value top = Some h
    /\ Qle 0 h
    /\ forall r v, r ∈ real -> Value r = Some v -> Qle v h.
Proof.
  intros Hwf Hsel Hcols Hne Hn.
  destruct (reshape_padded df sel kind Hwf Hsel Hcols Hne Hn)
    as (first & m & _ & _ & _ & (_ & Hm & Hmax) & Hout).
  eexists _, _, _, _. split; [exact Hout|].
  do 3 (split; [reflexivity|]).
  pose proof (headroom_above m Hm) as Hh. split.
  - eapply Qle_trans; eauto.
  - intros r v Hr Hv. eapply Qle_trans; [|exact Hh].
    apply Hmax. apply list_elem_of_fmap. by exists r.
Qed.

Lemma headroom_covers_every_table_witness :
  exists real zero top h,
    reshape negative_df ["Soundbox Hardware"] sessions = Ok (real ++ [zero; top])
    /\ Value top = Some h
    /\ Qle 0 h
    /\ Forall (fun r => forall v, Value r = Some v -> Qle v h) real.
Proof.
  destruct (headroom_covers_every_table negative_df ["Soundbox Hardware"] sessions
              negative_df_well_formed soundbox_selection
              ltac:(repeat constructor; intros p [= <-]; by eexists)
              ltac:(discriminate) ltac:(unfold nrows; simpl; lia))
    as (real & zero & top & h & Hout & _ & _ & Htop & Hh & Hall).
  exists real, zero, top, h. split; [exact Hout|]. split; [exact Htop|].
  split; [exact Hh|]. apply Forall_forall. intros r Hr v Hv. by apply (Hall r).
Defined.

(** X12. The headroom record has value 0, and the padding adds no room
    above the baseline, exactly when no real value is positive (all are
    zero, negative or null). *)
Theorem headroom_is_zero_iff (df : Table) sel kind :
  well_formed df -> selection sel -> columns_exist df kind sel ->
  sel <> [] -> (0 < nrows df)%nat ->
  exists real zero top h,
    reshape df sel kind = Ok (real ++ [zero; top])
    /\ real = real_records df kind sel
    /\ Value top = Some h
    /\ (Qeq h 0 <-> forall r v, r ∈ real -> Value r = Some v -> Qle v 0).
Proof.
  intros Hwf Hsel Hcols Hne Hn.
  destruct (reshape_padded df sel kind Hwf Hsel Hcols Hne Hn)
    as (first & m & _ & _ & _ & (Hin & Hm & Hmax) & Hout).
  eexists _, _, _, _. split; [exact Hout|].
  do 2 (split; [reflexivity|]). unfold headroom. split.
  - intros Hz r v Hr Hv.
    assert (Hv' : Qle v m).
    { apply Hmax. apply list_elem_of_fmap. by exists r. }
    lra.
  - intros Hall. assert (Hm0 : Qle m 0).
    { destruct Hin as [Hin| ->]; [|apply Qle_refl].
      apply list_elem_of_fmap in Hin as (r & Hv & Hr). by apply (Hall r). }
    lra.
Qed.

Lemma headroom_is_zero_iff_witness :
  exists real zero top h,
    reshape idle_df ["Refund"] sessions = Ok (real ++ [zero; top])
    /\ Value top = Some h
    /\ Qeq h 0.
Proof.
  destruct (headroom_is_zero_iff idle_df ["Refund"] sessions)
    as (real & zero & top & h & Hout & -> & Htop & Hiff).
  - split.
    + repeat constructor.
    + apply (bool_decide_unpack _). vm_compute. exact I.
  - split.
    + apply (bool_decide_unpack _). vm_compute. exact I.
    + repeat constructor; by eexists.
  - repeat constructor; intros p [= <-]; by eexists.
  - discriminate.
  - unfold nrows. simpl. lia.
  - eexists _, zero, top, h. split; [exact Hout|]. split; [exact Htop|].
    apply Hiff. intros r v Hr Hv.
    change (real_records idle_df sessions ["Refund"])
      with [ mkRecord (Some 20240101) "Refund" (Some 0%Q);
             mkRecord (Some 20240102) "Refund" None;
             mkRecord (Some 20240103) "Refund" (Some 0%Q) ] in Hr.
    repeat (apply elem_of_cons in Hr as [->|Hr];
            [simpl in Hv; first [discriminate Hv | injection Hv as <-; apply Qle_refl]|]).
    by apply elem_of_nil in Hr.
Defined.

(** ** Chart lines *)

Lemma line_points_all label (l : list LongRecord) :
  Forall (fun r => Intent r = label) l -> line_points label l = l.
Proof.
  unfold line_points. induction 1 as [|r l Hr _ IH]; simpl; [reflexivity|].
  rewrite Hr, String.eqb_refl. by rewrite IH.
Qed.

Lemma line_points_none label (l : list LongRecord) :
  Forall (fun r => Intent r <> label) l -> line_points label l = [].
Proof.
  unfold line_points. induction 1 as [|r l Hr _ IH]; simpl; [reflexivity|].
  destruct (String.eqb_spec (Intent r) label); [congruence | exact IH].
Qed.

Lemma line_points_app label (l1 l2 : list LongRecord) :
  line_points label (l1 ++ l2) = line_points label l1 ++ line_points label l2.
Proof. unfold line_points. apply List.filter_app. Qed.

Lemma Intent_category_rows df kind cat :
  Forall (fun r => Intent r = cat) (category_rows df kind cat).
Proof.
  unfold category_rows.
  destruct (dict_get category_mapping cat); [|constructor].
  destruct (dict_get (columns df) _) as [vals|]; [|constructor].
  apply Forall_forall. intros r Hr. apply list_elem_of_lookup in Hr as [i Hi].
  unfold melt_column in Hi.
  by apply lookup_zip_with_Some in Hi as (d & c & -> & _).
Qed.

Lemma line_points_real_records df kind sel cat :
  NoDup sel ->
  line_points cat (real_records df kind sel)
  = if decide (cat ∈ sel) then category_rows df kind cat else [].
Proof.
  intros Hnd. induction sel as [|c sel IH].
  - by rewrite decide_False by apply not_elem_of_nil.
  - apply NoDup_cons in Hnd as [Hc Hnd].
    rewrite real_records_cons, line_points_app, (IH Hnd).
    destruct (decide (c = cat)) as [->|Hne].
    + rewrite (line_points_all _ _ (Intent_category_rows df kind cat)).
      rewrite (decide_False (P := cat ∈ sel)) by done.
      rewrite (decide_True (P := cat ∈ cat :: sel)) by left.
      apply app_nil_r.
    + rewrite line_points_none.
      * destruct (decide (cat ∈ sel)) as [Hin|Hnin].
        -- rewrite decide_True; [reflexivity | by right].
        -- rewrite decide_False; [reflexivity|].
           intros [?|?]%elem_of_cons; congruence.
      * eapply Forall_impl; [apply Intent_category_rows|].
        simpl. intros r ->. exact Hne.
Qed.

(** X13. With [color='Intent'] the chart draws one line per selected
    category: the line of a category holds that category's rows, one per
    table row and in table order, and the two synthetic records are points
    of the line of the first selected category only. *)
Theorem chart_lines (df : Table) sel kind :
  well_formed df -> selection sel -> columns_exist df kind sel ->
  sel <> [] -> (0 < nrows df)%nat ->
  exists data zero top first,
    reshape df sel kind = Ok data
    /\ sel !! (0%nat) = Some first
    /\ line_points first data = category_rows df kind first ++ [zero; top]
    /\ (forall cat, cat ∈ sel -> cat <> first ->
          line_points cat data = category_rows df kind cat)
    /\ (forall cat, cat ∈ sel -> length (category_rows df kind cat) = nrows df)
    /\ (forall label, label ∉ sel -> line_points label data = []).
Proof.
  intros Hwf Hsel Hcols Hne Hn.
  destruct (reshape_padded df sel kind Hwf Hsel Hcols Hne Hn)
    as (first & m & _ & Hcat & _ & _ & Hout).
  assert (Hfirst : Intent first ∈ sel) by (by eapply list_elem_of_lookup_2).
  eexists _, _, _, (Intent first). split; [exact Hout|]. split; [exact Hcat|].
  split; [|split; [|split]].
  - rewrite line_points_app, (line_points_real_records _ _ _ _ (proj1 Hsel)).
    rewrite decide_True by done. f_equal.
    apply line_points_all. by repeat constructor.
  - intros cat Hin Hcf.
    rewrite line_points_app, (line_points_real_records _ _ _ _ (proj1 Hsel)).
    rewrite decide_True by done.
    rewrite (line_points_none cat [_; _]); [apply app_nil_r|].
    repeat constructor; simpl; congruence.
  - intros cat Hin. destruct Hsel as [_ Hvalid].
    rewrite Forall_forall in Hvalid. unfold columns_exist in Hcols.
    rewrite Forall_forall in Hcols.
    apply length_category_rows; [exact Hwf | exact (Hvalid _ Hin) | exact (Hcols _ Hin)].
  - intros label Hnin.
    rewrite line_points_app, (line_points_real_records _ _ _ _ (proj1 Hsel)).
    rewrite decide_False by done.
    apply line_points_none. repeat constructor; simpl; intros <-; contradiction.
Qed.

Lemma chart_lines_witness :
  exists data zero top,
    reshape two_by_two_df two_categories sessions = Ok data
    /\ line_points "Soundbox Hardware" data
       = category_rows two_by_two_df sessions "Soundbox Hardware" ++ [zero; top]
    /\ line_points "Profile" data = category_rows two_by_two_df sessions "Profile".
Proof.
  destruct (chart_lines two_by_two_df two_categories sessions
              two_by_two_well_formed two_categories_selection
              two_by_two_columns_exist ltac:(discriminate)
              ltac:(unfold nrows; simpl; lia))
    as (data & zero & top & first & Hout & Hfirst & Hline & Hothers & _).
  injection Hfirst as <-.
  exists data, zero, top. split; [exact Hout|]. split; [exact Hline|].
  apply Hothers.
  - apply (bool_decide_unpack _). vm_compute. exact I.
  - discriminate.
Defined.

(** ** Reshaper: the order of the selection *)

Lemma is_padded_max_ext vals vals' m m' :
  (forall x, x ∈ vals <-> x ∈ vals') ->
  is_padded_max vals m -> is_padded_max vals' m' -> Qeq m m'.
Proof.
  intros Hext (Hin & Hm & Hmax) (Hin' & Hm' & Hmax').
  apply Qle_antisym.
  - destruct Hin as [Hin| ->]; [|exact Hm']. apply Hmax'. by apply Hext.
  - destruct Hin' as [Hin'| ->]; [|exact Hm]. apply Hmax. by apply Hext.
Qed.

Lemma real_records_Permutation df kind sel sel' :
  sel ≡ₚ sel' -> real_records df kind sel ≡ₚ real_records df kind sel'.
Proof. intros H. unfold real_records. by rewrite H. Qed.

(** X14. Selecting the same categories in another order charts the same
    real records in another order: the real parts are permutations of
    each other, and the two synthetic records keep their date and their
    values; only the label of both follows the first category selected. *)
Theorem selection_order_permutes_records (df : Table) kind sel sel' :
  well_formed df -> selection sel -> columns_exist df kind sel ->
  sel ≡ₚ sel' -> sel <> [] -> (0 < nrows df)%nat ->
  exists real zero top real' zero' top' h h',
    reshape df sel kind = Ok (real ++ [zero; top])
    /\ reshape df sel' kind = Ok (real' ++ [zero'; top'])
    /\ real ≡ₚ real'
    /\ m_date zero' = m_date zero /\ m_date top' = m_date top
    /\ Value zero' = Value zero
    /\ Value top = Some h /\ Value top' = Some h' /\ Qeq h h'
    /\ sel !! (0%nat) = Some (Intent top)
    /\ sel' !! (0%nat) = Some (Intent top')
    /\ sel !! (0%nat) = Some (Intent zero)
    /\ sel' !! (0%nat) = Some (Intent zero').
Proof.
  intros Hwf Hsel Hcols Hperm Hne Hn.
  assert (Hsel' : selection sel').
  { destruct Hsel as [Hnd Hvalid]. split; by rewrite <- Hperm. }
  assert (Hcols' : columns_exist df kind sel').
  { unfold columns_exist in *. by rewrite <- Hperm. }
  assert (Hne' : sel' <> []).
  { intros ->. by apply Permutation_nil_r in Hperm. }
  destruct (reshape_padded df sel kind Hwf Hsel Hcols Hne Hn)
    as (first & m & _ & Hcat & _ & Hmax & Hout).
  destruct (reshape_padded df sel' kind Hwf Hsel' Hcols' Hne' Hn)
    as (first' & m' & _ & Hcat' & _ & Hmax' & Hout').
  pose proof (real_records_Permutation df kind sel sel' Hperm) as Hreal.
  rewrite (series_min_real_records df kind sel Hwf (proj2 Hsel) Hcols Hne) in Hout.
  rewrite (series_min_real_records df kind sel' Hwf (proj2 Hsel') Hcols' Hne') in Hout'.
  eexists _, _, _, _, _, _, _, _.
  split; [exact Hout|]. split; [exact Hout'|]. split; [exact Hreal|].
  do 5 (split; [reflexivity|]). split; [|by repeat split].
  unfold headroom.
  assert (Qeq m m'); [|lra].
  eapply is_padded_max_ext; [|exact Hmax|exact Hmax'].
  intros x. by rewrite Hreal.
Qed.

Lemma selection_order_permutes_records_witness :
  exists real zero top real' zero' top',
    reshape two_by_two_df two_categories sessions = Ok (real ++ [zero; top])
    /\ reshape two_by_two_df ["Profile"; "Soundbox Hardware"] sessions
       = Ok (real' ++ [zero'; top'])
    /\ real ≡ₚ real'
    /\ Intent top = "Soundbox Hardware" /\ Intent top' = "Profile"
    /\ Intent zero = "Soundbox Hardware" /\ Intent zero' = "Profile".
Proof.
  destruct (selection_order_permutes_records two_by_two_df sessions
              two_categories ["Profile"; "Soundbox Hardware"]
              two_by_two_well_formed two_categories_selection
              two_by_two_columns_exist ltac:(apply perm_swap)
              ltac:(discriminate) ltac:(unfold nrows; simpl; lia))
    as (real & zero & top & real' & zero' & top' & h & h' & Hout & Hout' & Hp
        & _ & _ & _ & _ & _ & _ & Hl & Hl' & Hz & Hz').
  exists real, zero, top, real', zero', top'.
  split; [exact Hout|]. split; [exact Hout'|]. split; [exact Hp|].
  injection Hl as <-. injection Hl' as <-.
  injection Hz as <-. injection Hz' as <-. by repeat split.
Defined.

(** ** Displayed metrics *)

Lemma digit_not_comma a : is_digit a = true -> Ascii.eqb a "," = false.
Proof.
  unfold is_digit. simpl. intros H.
  repeat (apply orb_prop in H as [H|H];
          [apply Ascii.eqb_eq in H as ->; reflexivity|]).
  discriminate H.
Qed.

Lemma digit_not_minus a : is_digit a = true -> a <> "-"%char.
Proof. intros H ->. discriminate H. Qed.

Lemma uint_digits d :
  Forall (fun a => is_digit a = true)
         (list_ascii_of_string (NilEmpty.string_of_uint d)).
Proof. induction d; simpl; constructor; auto. Qed.

Lemma nilzero_uint_digits d :
  Forall (fun a => is_digit a = true)
         (list_ascii_of_string (NilZero.string_of_uint d))
  /\ NilZero.string_of_uint d <> EmptyString.
Proof.
  destruct d; simpl; (split; [|discriminate]);
    try (repeat constructor; fail);
    constructor; try reflexivity; apply uint_digits.
Qed.

Lemma insert_commas_filter l c :
  Forall (fun a => is_digit a = true) l ->
  List.filter (fun a => negb (Ascii.eqb a ",")) (insert_commas l c) = l.
Proof.
  intros H. revert c. induction H as [|d l Hd _ IH]; intros c; simpl; [reflexivity|].
  apply digit_not_comma in Hd.
  destruct (c =? 3)%nat; simpl; rewrite Hd; simpl; by rewrite IH.
Qed.

Lemma remove_commas_group_thousands digits :
  Forall (fun a => is_digit a = true) (list_ascii_of_string digits) ->
  remove_commas (group_thousands digits) = digits.
Proof.
  intros H. unfold remove_commas, group_thousands.
  rewrite list_ascii_of_string_of_list_ascii, List.filter_rev.
  rewrite insert_commas_filter by (by apply Forall_rev).
  by rewrite rev_involutive, string_of_list_ascii_of_string.
Qed.

Lemma str_cases n :
  (0 <= n /\ Forall (fun a => is_digit a = true) (list_ascii_of_string (str n))
   /\ str n <> EmptyString
   /\ format_thousands n = group_thousands (str n))
  \/ (n < 0 /\ str n = String "-" (str (- n))
      /\ format_thousands n = String "-" (format_thousands (- n))).
Proof.
  assert (Hpos : forall p,
    Forall (fun a => is_digit a = true) (list_ascii_of_string (str (Z.pos p)))
    /\ str (Z.pos p) <> EmptyString
    /\ format_thousands (Z.pos p) = group_thousands (str (Z.pos p))).
  { intros p. unfold format_thousands, str. simpl.
    destruct (nilzero_uint_digits (Pos.to_uint p)) as [Hd Hne].
    split; [exact Hd|]. split; [exact Hne|].
    destruct (NilZero.string_of_uint (Pos.to_uint p)) as [|a s]; [reflexivity|].
    apply Forall_cons in Hd as [Ha _]. apply digit_not_minus in Ha.
    destruct a as [[] [] [] [] [] [] [] []]; try reflexivity. congruence. }
  destruct n as [|p|p].
  - left. split; [lia|]. split; [by repeat constructor|]. by split.
  - left. split; [lia|]. apply Hpos.
  - right. split; [lia|]. split; [reflexivity|].
    destruct (Hpos p) as (_ & _ & Hf).
    change (- Z.neg p) with (Z.pos p). rewrite Hf. reflexivity.
Qed.

Lemma remove_commas_format_thousands n :
  remove_commas (format_thousands n) = str n.
Proof.
  destruct (str_cases n) as [(_ & Hd & _ & ->)|(Hn & -> & ->)].
  - by apply remove_commas_group_thousands.
  - destruct (str_cases (- n)) as [(_ & Hd & _ & ->)|(Hn' & _)]; [|lia].
    unfold remove_commas. simpl. fold (remove_commas (group_thousands (str (- n)))).
    by rewrite remove_commas_group_thousands.
Qed.

Lemma parse_int_str n : parse_int (str n) = Some n.
Proof.
  unfold parse_int, str. rewrite NilZero.isi.
  - simpl. by rewrite DecimalZ.of_to.
  - destruct n; simpl; try discriminate.
    intros [= H]. by apply Unsigned.to_uint_nonnil in H.
  - destruct n; simpl; try discriminate.
    intros [= H]. by apply Unsigned.to_uint_nonnil in H.
Qed.



Lemma insert_commas_positions l c :
  (c <= 3)%nat ->
  Forall (fun a => is_digit a = true) l ->
  forall i a, insert_commas l c !! i = Some a ->
    (a = ","%char <-> ((i + c) mod 4 = 3)%nat)
    /\ (a <> ","%char -> is_digit a = true).
Proof.
  intros Hc H. revert c Hc.
  induction H as [|d l Hd _ IH]; intros c Hc i a; simpl.
  { by rewrite lookup_nil. }
  assert (Hdc : d <> ","%char).
  { intros ->. discriminate Hd. }
  destruct (Nat.eqb_spec c 3) as [->|Hne].
  - destruct i as [|[|j]]; simpl.
    + intros [= <-]. split; [by split|congruence].
    + intros [= <-]. split; [|done]. split; [congruence|]. discriminate.
    + intros Hj. destruct (IH 1%nat ltac:(lia) j a Hj) as [Hiff Hdig].
      split; [|exact Hdig]. rewrite Hiff.
      assert (E : ((S (S j) + 3) mod 4 = (j + 1) mod 4)%nat).
      { replace (S (S j) + 3)%nat with (j + 1 + 1 * 4)%nat by lia.
        apply Nat.Div0.mod_add. }
      by rewrite <- E.
  - destruct i as [|j]; simpl.
    + intros [= <-]. split; [|done]. split; [congruence|].
      destruct c as [|[|[|[|c]]]]; simpl; try discriminate; try congruence; lia.
    + intros Hj. destruct (IH (S c) ltac:(lia) j a Hj) as [Hiff Hdig].
      split; [|exact Hdig]. rewrite Hiff.
      assert (E : (S j + c = j + S c)%nat) by lia.
      by rewrite <- E.
Qed.

Lemma insert_commas_cons d l c :
  insert_commas (d :: l) c
  = if (c =? 3)%nat then ","%char :: d :: insert_commas l 1
    else d :: insert_commas l (S c).
Proof. reflexivity. Qed.

Lemma insert_commas_last l c :
  l <> [] -> Forall (fun a => is_digit a = true) l ->
  exists a, last (insert_commas l c) = Some a /\ is_digit a = true.
Proof.
  intros Hne H. revert c. induction H as [|d l Hd Hl IH]; intros c; [congruence|].
  rewrite insert_commas_cons. destruct l as [|d' l'].
  - exists d. by destruct (c =? 3)%nat.
  - destruct (c =? 3)%nat.
    + destruct (IH ltac:(discriminate) 1%nat) as (a & Ha & Hda).
      exists a. split; [|exact Hda]. by rewrite !last_cons, Ha.
    + destruct (IH ltac:(discriminate) (S c)) as (a & Ha & Hda).
      exists a. split; [|exact Hda]. by rewrite last_cons, Ha.
Qed.

(** X16. [f"{n:,}"] groups by three from the right: in the text of a
    non-negative [n], counting the characters from the right and from 0,
    the character at place [i] is a comma exactly when [i mod 4 = 3] and
    is a digit otherwise, and the text starts with a digit; the text of a
    negative number is ["-"] before the text of its absolute value. *)
Theorem format_thousands_groups n :
  (0 <= n ->
     (forall i a, from_right (format_thousands n) !! i = Some a ->
        (a = ","%char <-> (i mod 4 = 3)%nat)
        /\ (a <> ","%char -> is_digit a = true))
     /\ exists a rest, format_thousands n = String a rest /\ is_digit a = true)
  /\ (n < 0 -> format_thousands n = String "-" (format_thousands (- n))).
Proof.
  split.
  - intros Hn. destruct (str_cases n) as [(_ & Hd & Hne & ->)|(Hn' & _)]; [|lia].
    unfold from_right, group_thousands.
    rewrite list_ascii_of_string_of_list_ascii, rev_involutive.
    apply Forall_rev in Hd. split.
    + intros i a Hi.
      destruct (insert_commas_positions _ 0%nat ltac:(lia) Hd i a Hi) as [Hiff Hdig].
      by rewrite Nat.add_0_r in Hiff.
    + destruct (insert_commas_last (rev (list_ascii_of_string (str n))) 0%nat)
        as (a & Ha & Hda); [|exact Hd|].
      * intros Hrev. apply (f_equal (@rev ascii)) in Hrev.
        rewrite rev_involutive in Hrev. simpl in Hrev.
        apply Hne. rewrite <- (string_of_list_ascii_of_string (str n)).
        by rewrite Hrev.
      * apply last_Some in Ha as [init ->].
        exists a, (string_of_list_ascii (rev init)). split; [|exact Hda].
        by rewrite rev_app_distr.
  - intros Hn. destruct (str_cases n) as [(Hn' & _)|(_ & _ & Hf)]; [lia | exact Hf].
Qed.

Lemma format_thousands_groups_witness :
  format_thousands (-1234567) = String "-" (format_thousands 1234567)
  /\ exists a rest, format_thousands 1234567 = String a rest /\ is_digit a = true.
Proof.
  destruct (format_thousands_groups (-1234567)) as [_ Hneg].
  destruct (format_thousands_groups 1234567) as [Hpos _].
  split; [apply Hneg; lia|]. apply (Hpos ltac:(lia)).
Defined.

(** ** The store: what a section leaves alone *)

Lemma section_state_start t kind s : holds_table t s -> section_state t kind s s.
Proof.
  intros H. split; [exact H|]. split; [exact H|]. split; [reflexivity|].
  split; [by intros l o|reflexivity].
Qed.

Lemma bind_melted_step t kind rows s0 s1 :
  section_state t kind s0 s1 ->
  exists s2, bind_melted kind rows s1 = (s2, Ok tt)
    /\ section_state t kind s0 s2 /\ melted_fresh kind rows s0 s2.
Proof.
  intros (H0 & [Ht Hf] & Hv & Hkept & Hother).
  set (l := fresh (dom (heap s1))).
  assert (Hl : heap s1 !! l = None).
  { apply not_elem_of_dom. apply is_fresh. }
  assert (Hl0 : heap s0 !! l = None).
  { destruct (heap s0 !! l) as [o|] eqn:E; [|reflexivity].
    apply Hkept in E. congruence. }
  assert (Hne : l <> var_df s1) by congruence.
  eexists. split; [reflexivity|]. fold l. split.
  - split; [exact H0|]. split; [split|split; [|split]].
    + destruct kind; simpl; by rewrite lookup_insert_ne.
    + by destruct kind.
    + by destruct kind.
    + intros l' o Hl'. apply Hkept in Hl'.
      destruct kind; simpl; rewrite lookup_insert_ne; congruence.
    + by destruct kind.
  - exists l. destruct kind; simpl; (split; [reflexivity|]);
      (split; [apply lookup_insert_eq | exact Hl0]).
Qed.

Lemma set_melted_column_step t kind rows rows' s0 s1 :
  section_state t kind s0 s1 -> melted_fresh kind rows s0 s1 ->
  exists s2, set_melted_column kind rows' s1 = (s2, Ok tt)
    /\ section_state t kind s0 s2 /\ melted_fresh kind rows' s0 s2.
Proof.
  intros (H0 & [Ht Hf] & Hv & Hkept & Hother) (l & Hvar & _ & Hl0).
  unfold set_melted_column. rewrite Hvar.
  assert (Hne : l <> var_df s1).
  { intros ->. destruct H0 as [H0 _]. rewrite Hv in Hl0. congruence. }
  eexists. split; [reflexivity|]. split.
  - split; [exact H0|]. split; [split|split; [|split]].
    + simpl. by rewrite lookup_insert_ne.
    + done.
    + done.
    + intros l' o Hl'. simpl. rewrite lookup_insert_ne; [by apply Hkept | congruence].
    + by destruct kind.
  - exists l. split; [by destruct kind|]. split; [apply lookup_insert_eq | exact Hl0].
Qed.

Lemma get_melted_fresh kind rows s0 s1 :
  melted_fresh kind rows s0 s1 -> get_melted kind s1 = (s1, Ok rows).
Proof. intros (l & Hl & Hrows & _). unfold get_melted. by rewrite Hl, Hrows. Qed.

Lemma run_section_state t kind sel s :
  holds_table t s -> section_state t kind s (fst (run_section kind sel s)).
Proof.
  intros H. pose proof (section_state_start t kind s H) as S0.
  unfold run_section. rewrite seq_lift.
  destruct (traverse (intent_column kind) sel) as [vars|e]; [|exact S0].
  destruct sel as [|cat sel]; [exact S0|].
  rewrite (seq_ok _ _ _ _ _ (get_filtered_df_holds t s H)), seq_lift.
  destruct (melt t vars) as [melted|e]; [|exact S0].
  destruct (bind_melted_step t kind melted s s S0) as (s1 & E1 & S1 & F1).
  rewrite (seq_ok _ _ _ _ _ E1), (seq_ok _ _ _ _ _ (get_melted_fresh _ _ _ _ F1)), seq_lift.
  destruct (relabel melted) as [relabelled|e]; [|exact S1].
  destruct (set_melted_column_step t kind melted relabelled s s1 S1 F1)
    as (s2 & E2 & S2 & F2).
  rewrite (seq_ok _ _ _ _ _ E2), (seq_ok _ _ _ _ _ (get_melted_fresh _ _ _ _ F2)).
  destruct relabelled as [|r rs]; [exact S2|].
  rewrite seq_lift.
  destruct (zero_row _ (r :: rs)) as [zero|e]; [|exact S2].
  destruct (bind_melted_step t kind (concat_row (r :: rs) zero) s s2 S2)
    as (s3 & E3 & S3 & F3).
  rewrite (seq_ok _ _ _ _ _ E3), (seq_ok _ _ _ _ _ (get_melted_fresh _ _ _ _ F3)), seq_lift.
  destruct (top_buffer _ (concat_row (r :: rs) zero)) as [top|e]; [|exact S3].
  destruct (bind_melted_step t kind (concat_row (concat_row (r :: rs) zero) top) s s3 S3)
    as (s4 & E4 & S4 & F4).
  rewrite (seq_ok _ _ _ _ _ E4), (seq_ok _ _ _ _ _ (get_melted_fresh _ _ _ _ F4)).
  exact S4.
Qed.

(** X18. A chart section changes no frame that was in the store before
    it ran and drops none: it writes only into frames it has built
    itself.  In particular the frame the other section has left in its
    variable is still there, unchanged, and that variable still names
    it. *)
Theorem section_keeps_frames t kind sel s :
  holds_table t s ->
  frames_kept s (fst (run_section kind sel s))
  /\ melted_var (other_kind kind) (fst (run_section kind sel s))
     = melted_var (other_kind kind) s
  /\ forall l rows,
       melted_var (other_kind kind) s = Some l ->
       heap s !! l = Some (Long rows) ->
       get_melted (other_kind kind) (fst (run_section kind sel s))
       = (fst (run_section kind sel s), Ok rows).
Proof.
  intros H. destruct (run_section_state t kind sel s H)
    as (_ & _ & _ & Hkept & Hother).
  split; [exact Hkept|]. split; [exact Hother|].
  intros l rows Hl Hrows. unfold get_melted.
  by rewrite Hother, Hl, (Hkept _ _ Hrows).
Qed.

Lemma section_keeps_frames_witness :
  let s := fst (run_section sessions ["Profile"] (after_load both_kinds_df)) in
  let s' := fst (run_section messages ["Profile"] s) in
  (exists rows data,
     snd (get_melted sessions s) = Ok rows
     /\ length rows = 4%nat
     /\ snd (run_section messages ["Profile"] s) = Ok (line_chart data)
     /\ snd (get_melted messages s') = Ok data
     /\ length data = 4%nat
     /\ get_melted sessions s' = (s', Ok rows))
  /\ melted_var sessions s' = melted_var sessions s
  /\ frames_kept s s'.
Proof.
  intros s s'.
  assert (H : holds_table both_kinds_df s).
  { destruct (run_section_spec both_kinds_df sessions ["Profile"]
                (after_load both_kinds_df)) as (s0 & E & _ & H').
    - split; [apply lookup_singleton_eq | reflexivity].
    - subst s. by rewrite E. }
  destruct (section_keeps_frames both_kinds_df messages ["Profile"] s H)
    as (Hkept & Hother & Hread).
  split; [|split; [exact Hother | exact Hkept]].
  destruct (melted_var sessions s) as [l|] eqn:Hl; [|by vm_compute in Hl].
  destruct (heap s !! l) as [[t|rows]|] eqn:Hrows;
    [vm_compute in Hl; injection Hl as <-; by vm_compute in Hrows
    | | vm_compute in Hl; injection Hl as <-; by vm_compute in Hrows].
  exists rows. eexists.
  split; [unfold get_melted; by rewrite Hl, Hrows|].
  split; [vm_compute in Hl; injection Hl as <-; vm_compute in Hrows;
          by injection Hrows as <-|].
  split; [reflexivity|]. split; [reflexivity|]. split; [reflexivity|].
  exact (Hread l rows Hl Hrows).
Defined.

(** ** The page as first rendered *)

Lemma default_categories_selection : selection default_categories.
Proof.
  split.
  - apply (bool_decide_unpack _). vm_compute. exact I.
  - repeat first [apply List.Forall_cons | apply List.Forall_nil]; by eexists.
Qed.

(** X19. The page as first rendered: the default of the multiselect is
    made of options of the multiselect, and on a table loaded from a
    well-formed file with at least one row that has the columns of the six
    default categories, under their labels of today or their legacy
    labels, each chart holds six records per row followed by the two
    synthetic records, both under "Soundbox Hardware". *)
Theorem first_render parse csv df kind :
  load_data parse csv = Ok df ->
  Forall (fun c : string * list cell => length (snd c) = csv_rows (date_ csv))
         (columns csv) ->
  NoDup (labels csv) ->
  no_rename_clash csv ->
  Forall (fun cat => forall p, dict_get category_mapping cat = Some p ->
            csv_has_column csv (p ++ metric_suffix kind)%string)
         default_categories ->
  (0 < csv_rows (date_ csv))%nat ->
  default_categories ⊆ multiselect_options
  /\ exists real zero top,
       reshape df default_categories kind = Ok (real ++ [zero; top])
       /\ length real = (6 * csv_rows (date_ csv))%nat
       /\ Intent zero = "Soundbox Hardware"
       /\ Intent top = "Soundbox Hardware".
Proof.
  intros Hload Hlen Hnd Hclash Hcols Hrows. split.
  { intros cat Hcat. apply (bool_decide_unpack _).
    revert cat Hcat. apply Forall_forall.
    repeat first [apply List.Forall_cons | apply List.Forall_nil];
      vm_compute; exact I. }
  destruct (load_data_shape parse csv df Hload Hlen Hnd Hclash) as [Hn Hwf].
  pose proof (load_data_columns_exist parse csv df kind _ Hload Hcols) as Hex.
  destruct (reshape_padded df default_categories kind Hwf
              default_categories_selection Hex ltac:(discriminate)
              ltac:(by rewrite Hn))
    as (first & m & _ & Hcat & _ & _ & Hout).
  injection Hcat as Hcat.
  eexists _, _, _. split; [exact Hout|]. split; [|by split].
  rewrite (length_real_records df kind _ Hwf (proj2 default_categories_selection) Hex).
  by rewrite Hn.
Qed.

Lemma first_render_witness :
  exists df real zero top,
    load_data parse_digits default_csv = Ok df
    /\ reshape df default_categories sessions = Ok (real ++ [zero; top])
    /\ length real = 12%nat
    /\ Intent top = "Soundbox Hardware".
Proof.
  destruct (first_render parse_digits default_csv _ sessions eq_refl)
    as (_ & real & zero & top & Hout & Hlen & _ & Htop).
  - repeat constructor.
  - apply (bool_decide_unpack _). vm_compute. exact I.
  - unfold no_rename_clash. rename_map_cases; intros _;
      apply (bool_decide_unpack _); vm_compute; exact I.
  - repeat first [apply List.Forall_cons | apply List.Forall_nil];
      intros p [= <-]; unfold csv_has_column.
    + right. exists "sb_sessions".
      split; apply (bool_decide_unpack _); vm_compute; exact I.
    + left. apply (bool_decide_unpack _). vm_compute. exact I.
    + left. apply (bool_decide_unpack _). vm_compute. exact I.
    + right. exists "payment_acceptence_sessions".
      split; apply (bool_decide_unpack _); vm_compute; exact I.
    + left. apply (bool_decide_unpack _). vm_compute. exact I.
    + right. exists "edc_sessions".
      split; apply (bool_decide_unpack _); vm_compute; exact I.
  - simpl. lia.
  - eexists _, real, zero, top. split; [reflexivity|].
    split; [exact Hout|]. split; [exact Hlen | exact Htop].
Defined.

(** ** Loading and totals *)



Lemma intent_columns_distinct_witness :
  exists vars,
    traverse (intent_column messages) default_categories = Ok vars /\ NoDup vars.
Proof.
  eexists. split; [reflexivity|].
  apply (proj2 intent_columns_distinct messages default_categories).
  - exact (proj1 default_categories_selection).
  - reflexivity.
Defined.
